(** * A browser client for a remote file store: embedding of [script.js]

    The script wires two buttons of a page (search, upload) and two buttons on
    every rendered card (rename, delete) to four REST calls issued with
    [fetch], and writes the outcome back into the page.

    The development has five parts.

    - [Js]: the ECMAScript built-ins the script calls ([String.prototype.trim],
      [encodeURIComponent], [JSON.stringify] of a one-property object, the
      string conversion of a template literal).
    - [Html] and [DriveQuery]: what the two consumers of the strings the script
      builds read out of them: the browser's fragment tokenizer for
      [innerHTML], and the reader of a quoted literal in the remote filter
      language.
    - The page state, a small monad for the script's effects (DOM writes,
      dialogs, [fetch], exceptions, un-awaited calls) and its interpreter.
    - Section [Script]: the functions of [script.js] under their own names.
    - The properties, each after the lemmas it rests on, and concrete runs.

    Strings are [string]s of bytes read as UTF-8; every function below that
    depends on the encoding says so.

    A run is one user action from the click to the end of everything the
    click started.  What a timer or another click does to the page while the
    action waits for the network is not part of the run. *)

From Stdlib Require Import String Ascii List Bool Arith Lia Setoid Morphisms.
Import ListNotations.
Local Open Scope string_scope.
Local Open Scope nat_scope.

(* ================================================================== *)
(** ** ECMAScript built-ins *)
(* ================================================================== *)

Module Js.

Definition chr (n : nat) : ascii := ascii_of_nat n.

(** The two characters a string literal cannot hold conveniently. *)
Definition LF : string := String (chr 10) "".
Definition DQ : string := String (chr 34) "".

(** [WhiteSpace] and [LineTerminator] of ECMA-262, in UTF-8: the one-byte
    code points U+0009..U+000D and U+0020, the two-byte U+00A0, and the
    three-byte U+1680, U+2000..U+200A, U+2028, U+2029, U+202F, U+205F,
    U+3000 and U+FEFF. *)
Definition ws1 (a : ascii) : bool :=
  let x := nat_of_ascii a in
  ((9 <=? x) && (x <=? 13)) || (x =? 32).

Definition ws2 (a b : ascii) : bool :=
  (nat_of_ascii a =? 194) && (nat_of_ascii b =? 160).

Definition ws3 (a b c : ascii) : bool :=
  let x := nat_of_ascii a in
  let y := nat_of_ascii b in
  let z := nat_of_ascii c in
  ((x =? 225) && (y =? 154) && (z =? 128))
  || ((x =? 226) && (y =? 128)
      && (((128 <=? z) && (z <=? 138)) || (z =? 168) || (z =? 169) || (z =? 175)))
  || ((x =? 226) && (y =? 129) && (z =? 159))
  || ((x =? 227) && (y =? 128) && (z =? 128))
  || ((x =? 239) && (y =? 187) && (z =? 191)).

(** Drops the white space a string starts with.  With [back] the string is
    read from its end, so the bytes of a code point arrive last byte
    first. *)
Fixpoint strip (back : bool) (s : string) : string :=
  match s with
  | "" => ""
  | String a s1 =>
      if ws1 a then strip back s1 else
      match s1 with
      | "" => s
      | String b s2 =>
          if (if back then ws2 b a else ws2 a b) then strip back s2 else
          match s2 with
          | "" => s
          | String c s3 =>
              if (if back then ws3 c b a else ws3 a b c) then strip back s3 else s
          end
      end
  end.

Fixpoint rev_onto (s acc : string) : string :=
  match s with
  | "" => acc
  | String a s' => rev_onto s' (String a acc)
  end.

Definition reverse (s : string) : string := rev_onto s "".

Definition trimStart (s : string) : string := strip false s.
Definition trimEnd (s : string) : string := reverse (strip true (reverse s)).

(** [String.prototype.trim]. *)
Definition trim (s : string) : string := trimEnd (trimStart s).

(** A string is falsy exactly when it is empty. *)
Definition truthy (s : string) : bool :=
  match s with "" => false | _ => true end.

(** [uriUnreserved] of [encodeURIComponent]: letters, digits and
    [- _ . ! ~ * ' ( )]. *)
Definition unreserved (a : ascii) : bool :=
  let x := nat_of_ascii a in
  ((65 <=? x) && (x <=? 90)) || ((97 <=? x) && (x <=? 122))
  || ((48 <=? x) && (x <=? 57))
  || (x =? 45) || (x =? 95) || (x =? 46) || (x =? 33) || (x =? 126)
  || (x =? 42) || (x =? 39) || (x =? 40) || (x =? 41).

Definition hex_upper (n : nat) : ascii :=
  if n <? 10 then chr (48 + n) else chr (55 + n).

Definition hex_lower (n : nat) : ascii :=
  if n <? 10 then chr (48 + n) else chr (87 + n).

(** [encodeURIComponent]: every byte of the UTF-8 encoding that is not
    unreserved becomes [%XX], upper-case.  (A lone surrogate, on which the
    built-in throws, has no UTF-8 encoding.) *)
Fixpoint encodeURIComponent (s : string) : string :=
  match s with
  | "" => ""
  | String a s' =>
      if unreserved a then String a (encodeURIComponent s')
      else
        let x := nat_of_ascii a in
        String "%" (String (hex_upper (x / 16)) (String (hex_upper (x mod 16))
          (encodeURIComponent s')))
  end.

Definition hex_value (a : ascii) : option nat :=
  let x := nat_of_ascii a in
  if (48 <=? x) && (x <=? 57) then Some (x - 48)
  else if (65 <=? x) && (x <=? 70) then Some (x - 55)
  else if (97 <=? x) && (x <=? 102) then Some (x - 87)
  else None.


(** [QuoteJSONString]: the escapes [JSON.stringify] applies inside a string. *)
Definition json_escape (a : ascii) : string :=
  let x := nat_of_ascii a in
  if x =? 34 then String (chr 92) DQ
  else if x =? 92 then String (chr 92) (String (chr 92) "")
  else if x =? 8 then String (chr 92) "b"
  else if x =? 12 then String (chr 92) "f"
  else if x =? 10 then String (chr 92) "n"
  else if x =? 13 then String (chr 92) "r"
  else if x =? 9 then String (chr 92) "t"
  else if x <? 32 then
    String (chr 92) ("u00" ++ String (hex_lower (x / 16)) (String (hex_lower (x mod 16)) ""))
  else String a "".

Fixpoint json_escape_all (s : string) : string :=
  match s with
  | "" => ""
  | String a s' => json_escape a ++ json_escape_all s'
  end.

Definition json_quote (s : string) : string := DQ ++ json_escape_all s ++ DQ.

(** [JSON.stringify({ name: v })]. *)
Definition JSON_stringify_name (v : string) : string :=
  "{" ++ DQ ++ "name" ++ DQ ++ ":" ++ json_quote v ++ "}".

(** What follows a given prefix. *)
Fixpoint strip_prefix (p s : string) : option string :=
  match p, s with
  | "", _ => Some s
  | String a p', String b s' => if Ascii.eqb a b then strip_prefix p' s' else None
  | _, _ => None
  end.

(** The receiving side of [json_quote]: the content of a JSON string whose
    opening quote has been consumed, and what follows its closing quote.
    Escapes above U+007F, which [JSON.stringify] does not produce for a
    well-formed string, are not read. *)
Fixpoint json_unescape (s : string) : option (string * string) :=
  match s with
  | "" => None
  | String a s1 =>
      let x := nat_of_ascii a in
      if x =? 34 then Some ("", s1)
      else if x =? 92 then
        match s1 with
        | "" => None
        | String b s2 =>
            let y := nat_of_ascii b in
            let plain (c : nat) :=
              match json_unescape s2 with
              | Some (v, r) => Some (String (chr c) v, r)
              | None => None
              end in
            if y =? 34 then plain 34
            else if y =? 92 then plain 92
            else if y =? 47 then plain 47
            else if y =? 98 then plain 8
            else if y =? 102 then plain 12
            else if y =? 110 then plain 10
            else if y =? 114 then plain 13
            else if y =? 116 then plain 9
            else if y =? 117 then
              match s2 with
              | String h1 (String h2 (String h3 (String h4 s6))) =>
                  match hex_value h1, hex_value h2, hex_value h3, hex_value h4,
                        json_unescape s6 with
                  | Some 0, Some 0, Some h, Some l, Some (v, r) =>
                      if 16 * h + l <? 128 then Some (String (chr (16 * h + l)) v, r)
                      else None
                  | _, _, _, _, _ => None
                  end
              | _ => None
              end
            else None
        end
      else if x <? 32 then None
      else
        match json_unescape s1 with
        | Some (v, r) => Some (String a v, r)
        | None => None
        end
  end.

(** What a reader of the body [JSON.stringify({ name: v })] finds as the
    name. *)
Definition JSON_parse_name (s : string) : option string :=
  match strip_prefix ("{" ++ DQ ++ "name" ++ DQ ++ ":" ++ DQ) s with
  | Some r =>
      match json_unescape r with
      | Some (v, "}") => Some v
      | _ => None
      end
  | None => None
  end.

(** The value of a key in a list of pairs, the first binding winning: an
    own property of a decoded object, an attribute of an element. *)
Fixpoint lookup (k : string) (l : list (string * string)) : option string :=
  match l with
  | [] => None
  | (k', v) :: l' => if String.eqb k k' then Some v else lookup k l'
  end.

(** A property read that may find nothing ([undefined]), and what a
    template literal makes of it. *)
Definition toStr (v : option string) : string :=
  match v with Some s => s | None => "undefined" end.

End Js.

(* ================================================================== *)
(** ** What the browser reads out of [innerHTML] *)
(* ================================================================== *)

(** The tokenizer of the HTML standard (section 13.2.5), restricted to what
    markup made of elements, attributes and text needs: the data state, the
    tag states and the attribute states.  Whatever lies outside (character
    references, comments and declarations, NUL and CR, which the input stream
    rewrites, and the elements that switch the tokenizer to raw text) makes
    the result [None]: the model then says nothing.  Parse errors that the
    standard recovers from are recovered from the same way. *)
Module Html.

Inductive token : Type :=
| StartTag (name : string) (attrs : list (string * string))
| EndTag (name : string)
| Character (c : ascii).

Record tag : Type := mkTag {
  t_end : bool;
  t_name : string;
  t_attrs : list (string * string)
}.

Inductive state : Type :=
| Data
| TagOpen
| EndTagOpen
| TagName (t : tag)
| BeforeAttrName (t : tag)
| AttrName (t : tag) (n : string)
| AfterAttrName (t : tag) (n : string)
| BeforeAttrValue (t : tag) (n : string)
| AttrValueDQ (t : tag) (n v : string)
| AttrValueSQ (t : tag) (n v : string)
| AttrValueUQ (t : tag) (n v : string)
| AfterAttrValueQ (t : tag)
| SelfClosing (t : tag).

Definition code (a : ascii) : nat := nat_of_ascii a.

Definition isc (x : nat) (a : ascii) : bool := code a =? x.

Definition is_space (a : ascii) : bool :=
  isc 9 a || isc 10 a || isc 12 a || isc 32 a.

Definition is_alpha (a : ascii) : bool :=
  ((65 <=? code a) && (code a <=? 90)) || ((97 <=? code a) && (code a <=? 122)).

Definition lower (a : ascii) : ascii :=
  if (65 <=? code a) && (code a <=? 90) then ascii_of_nat (code a + 32) else a.

Definition snoc (s : string) (a : ascii) : string := s ++ String a "".

(** A second attribute of the same name is dropped. *)
Definition add_attr (t : tag) (n v : string) : tag :=
  match Js.lookup n (t_attrs t) with
  | Some _ => t
  | None => mkTag (t_end t) (t_name t) (t_attrs t ++ [(n, v)])%list
  end.

Definition name_char (t : tag) (a : ascii) : tag :=
  mkTag (t_end t) (snoc (t_name t) (lower a)) (t_attrs t).

(** Elements whose start tag takes the tokenizer out of the data state. *)
Definition raw_text_elements : list string :=
  ["title"; "textarea"; "style"; "xmp"; "iframe"; "noembed"; "noframes";
   "noscript"; "script"; "plaintext"].

Definition emit (t : tag) : option (state * list token) :=
  if t_end t then Some (Data, [EndTag (t_name t)])
  else if existsb (String.eqb (t_name t)) raw_text_elements then None
  else Some (Data, [StartTag (t_name t) (t_attrs t)]).

Definition data_step (a : ascii) : option (state * list token) :=
  if isc 38 a then None
  else if isc 60 a then Some (TagOpen, [])
  else Some (Data, [Character a]).

Definition before_attr_name_step (t : tag) (a : ascii) : option (state * list token) :=
  if is_space a then Some (BeforeAttrName t, [])
  else if isc 47 a then Some (SelfClosing t, [])
  else if isc 62 a then emit t
  else Some (AttrName t (String (lower a) ""), []).

Definition after_attr_name_step (t : tag) (n : string) (a : ascii)
  : option (state * list token) :=
  if is_space a then Some (AfterAttrName t n, [])
  else if isc 47 a then Some (SelfClosing (add_attr t n ""), [])
  else if isc 61 a then Some (BeforeAttrValue t n, [])
  else if isc 62 a then emit (add_attr t n "")
  else Some (AttrName (add_attr t n "") (String (lower a) ""), []).

Definition attr_value_uq_step (t : tag) (n v : string) (a : ascii)
  : option (state * list token) :=
  if is_space a then Some (BeforeAttrName (add_attr t n v), [])
  else if isc 38 a then None
  else if isc 62 a then emit (add_attr t n v)
  else Some (AttrValueUQ t n (snoc v a), []).

(** One input character.  Where the standard reconsumes the character in
    another state, the other state's step is applied to it here. *)
Definition step (st : state) (a : ascii) : option (state * list token) :=
  if isc 0 a || isc 13 a then None else
  match st with
  | Data => data_step a
  | TagOpen =>
      if isc 33 a || isc 63 a then None
      else if isc 47 a then Some (EndTagOpen, [])
      else if is_alpha a then Some (TagName (mkTag false (String (lower a) "") []), [])
      else
        match data_step a with
        | Some (st', out) => Some (st', Character "<" :: out)
        | None => None
        end
  | EndTagOpen =>
      if is_alpha a then Some (TagName (mkTag true (String (lower a) "") []), [])
      else if isc 62 a then Some (Data, [])
      else None
  | TagName t =>
      if is_space a then Some (BeforeAttrName t, [])
      else if isc 47 a then Some (SelfClosing t, [])
      else if isc 62 a then emit t
      else Some (TagName (name_char t a), [])
  | BeforeAttrName t => before_attr_name_step t a
  | AttrName t n =>
      if is_space a || isc 47 a || isc 62 a then after_attr_name_step t n a
      else if isc 61 a then Some (BeforeAttrValue t n, [])
      else Some (AttrName t (snoc n (lower a)), [])
  | AfterAttrName t n => after_attr_name_step t n a
  | BeforeAttrValue t n =>
      if is_space a then Some (BeforeAttrValue t n, [])
      else if isc 34 a then Some (AttrValueDQ t n "", [])
      else if isc 39 a then Some (AttrValueSQ t n "", [])
      else if isc 62 a then emit (add_attr t n "")
      else attr_value_uq_step t n "" a
  | AttrValueDQ t n v =>
      if isc 34 a then Some (AfterAttrValueQ (add_attr t n v), [])
      else if isc 38 a then None
      else Some (AttrValueDQ t n (snoc v a), [])
  | AttrValueSQ t n v =>
      if isc 39 a then Some (AfterAttrValueQ (add_attr t n v), [])
      else if isc 38 a then None
      else Some (AttrValueSQ t n (snoc v a), [])
  | AttrValueUQ t n v => attr_value_uq_step t n v a
  | AfterAttrValueQ t =>
      if is_space a then Some (BeforeAttrName t, [])
      else if isc 47 a then Some (SelfClosing t, [])
      else if isc 62 a then emit t
      else before_attr_name_step t a
  | SelfClosing t =>
      if isc 62 a then emit t else before_attr_name_step t a
  end.

(** End of input: an unfinished tag is dropped. *)
Definition at_eof (st : state) : list token :=
  match st with
  | TagOpen => [Character "<"]
  | EndTagOpen => [Character "<"; Character "/"]
  | _ => []
  end.

Fixpoint tokenize_from (st : state) (s : string) : option (list token) :=
  match s with
  | "" => Some (at_eof st)
  | String a s' =>
      match step st a with
      | None => None
      | Some (st', out) =>
          match tokenize_from st' s' with
          | None => None
          | Some rest => Some (out ++ rest)%list
          end
      end
  end.

Definition tokenize (markup : string) : option (list token) :=
  tokenize_from Data markup.

(** The same over a piece of the input: the state reached and the tokens
    emitted on the way. *)
Fixpoint steps (st : state) (s : string) : option (state * list token) :=
  match s with
  | "" => Some (st, [])
  | String a s' =>
      match step st a with
      | None => None
      | Some (st', out) =>
          match steps st' s' with
          | None => None
          | Some (st'', out') => Some (st'', (out ++ out')%list)
          end
      end
  end.



Definition text (s : string) : list token :=
  map Character (list_ascii_of_string s).

(** The words of a [class] attribute. *)
Fixpoint words_from (cur : string) (s : string) : list string :=
  match s with
  | "" => if Js.truthy cur then [cur] else []
  | String a s' =>
      if is_space a || isc 13 a
      then (if Js.truthy cur then cur :: words_from "" s' else words_from "" s')
      else words_from (snoc cur a) s'
  end.

Definition has_class (cls : string) (attrs : list (string * string)) : bool :=
  match Js.lookup "class" attrs with
  | Some v => existsb (String.eqb cls) (words_from "" v)
  | None => false
  end.

(** The attribute lists of the elements a class selector finds, in document
    order: [querySelectorAll('.cls')] over the tokens of one fragment. *)
Fixpoint select (cls : string) (ts : list token) : list (list (string * string)) :=
  match ts with
  | [] => []
  | StartTag _ attrs :: ts' =>
      if has_class cls attrs then attrs :: select cls ts' else select cls ts'
  | _ :: ts' => select cls ts'
  end.

(** The characters the fragment shows between the first start tag named [n]
    and the next tag of any kind. *)
Fixpoint leading_text (ts : list token) : string :=
  match ts with
  | Character c :: ts' => String c (leading_text ts')
  | _ => ""
  end.

Fixpoint text_after_start (n : string) (ts : list token) : option string :=
  match ts with
  | [] => None
  | StartTag m _ :: ts' =>
      if String.eqb n m then Some (leading_text ts') else text_after_start n ts'
  | _ :: ts' => text_after_start n ts'
  end.

End Html.

(* ================================================================== *)
(** ** What the remote service reads out of the filter *)
(* ================================================================== *)

(** A string literal of the remote filter language: opened and closed by a
    single quote; a backslash takes the next character literally. *)
Module DriveQuery.

(** Reads a literal whose opening quote has been consumed: its content and
    what follows the closing quote; [None] when the quote never closes. *)
Fixpoint read_literal (s : string) : option (string * string) :=
  match s with
  | "" => None
  | String a s1 =>
      if nat_of_ascii a =? 39 then Some ("", s1)
      else if nat_of_ascii a =? 92 then
        match s1 with
        | "" => None
        | String b s2 =>
            match read_literal s2 with
            | Some (lit, rest) => Some (String b lit, rest)
            | None => None
            end
        end
      else
        match read_literal s1 with
        | Some (lit, rest) => Some (String a lit, rest)
        | None => None
        end
  end.

(** Text with neither a quote nor a backslash in it. *)
Fixpoint plain (s : string) : bool :=
  match s with
  | "" => true
  | String a s' =>
      negb (nat_of_ascii a =? 39) && negb (nat_of_ascii a =? 92) && plain s'
  end.

(** The operand of [name contains] at the head of a filter and the rest of
    the filter after it. *)
Definition name_operand (filter : string) : option (string * string) :=
  match Js.strip_prefix "name contains '" filter with
  | Some s => read_literal s
  | None => None
  end.

End DriveQuery.

(* ================================================================== *)
(** ** The page, the network and the script's effects *)
(* ================================================================== *)

(** [config.js] is not part of the sources: its two values are taken as
    given. *)
Record Config : Type := {
  BASE_URL : string;
  ACCESS_TOKEN : string
}.

(** A decoded JSON object with string-valued properties; a property that is
    not there reads as [None] ([undefined]). *)
Definition JsObject : Type := list (string * string).

Definition get (o : JsObject) (key : string) : option string := Js.lookup key o.

(** The [File] picked in the file input. *)
Record File : Type := {
  file_name : string;
  file_type : string;
  file_bytes : string
}.

Inductive JsError : Type :=
| Error (msg : string)
| TypeError (msg : string)
| SyntaxError (msg : string).

Definition message (e : JsError) : string :=
  match e with Error m | TypeError m | SyntaxError m => m end.

(** A decoded response body, in the shapes the remote endpoints answer with:
    an object of string properties (a file resource) that may carry a
    [files] array of such objects (a file list). *)
Record Body : Type := {
  props : JsObject;
  files : option (list JsObject)
}.

(** A [Response]: its [ok] flag and what [response.json()] settles to. *)
Record Response : Type := {
  ok : bool;
  json : JsError + Body
}.

(** What the promise of [fetch] settles to. *)
Inductive FetchResult : Type :=
| Rejected (e : JsError)
| Resolved (r : Response).

Inductive Payload : Type :=
| NoBody
| Text (s : string)
| Blob (f : File).

Record Request : Type := {
  method : string;
  url : string;
  headers : list (string * string);
  body : Payload
}.

(** A child of [#resultsGrid]: the [div] the script creates, with the markup
    it assigns, and whether the buttons inside have been given their
    [onclick]. *)
Record Card : Type := {
  className : string;
  innerHTML : string;
  listening : bool
}.

(** The elements the script holds references to. *)
Record Dom : Type := {
  searchInput_value : string;
  fileInput_files : list File;
  resultsGrid : list Card;
  errorBox_innerText : string;
  errorBox_hidden : bool;
  loader_hidden : bool;
  searchBtn_disabled : bool;
  uploadBtn_disabled : bool
}.

(** The writes the script performs on them. *)
Inductive DomOp : Type :=
| ResultsGrid_clear
| ResultsGrid_appendChild (c : Card)
| Cards_onclick
| ErrorBox_innerText (s : string)
| ErrorBox_hidden (b : bool)
| Loader_hidden (b : bool)
| SearchBtn_disabled (b : bool)
| UploadBtn_disabled (b : bool)
| FileInput_clear.

Definition wire (c : Card) : Card :=
  {| className := className c; innerHTML := innerHTML c; listening := true |}.

Definition apply (op : DomOp) (d : Dom) : Dom :=
  let mk si ff rg et eh lh sd ud :=
    {| searchInput_value := si; fileInput_files := ff; resultsGrid := rg;
       errorBox_innerText := et; errorBox_hidden := eh; loader_hidden := lh;
       searchBtn_disabled := sd; uploadBtn_disabled := ud |} in
  let '{| searchInput_value := si; fileInput_files := ff; resultsGrid := rg;
          errorBox_innerText := et; errorBox_hidden := eh; loader_hidden := lh;
          searchBtn_disabled := sd; uploadBtn_disabled := ud |} := d in
  match op with
  | ResultsGrid_clear => mk si ff [] et eh lh sd ud
  | ResultsGrid_appendChild c => mk si ff (rg ++ [c])%list et eh lh sd ud
  | Cards_onclick => mk si ff (map wire rg) et eh lh sd ud
  | ErrorBox_innerText s => mk si ff rg s eh lh sd ud
  | ErrorBox_hidden b => mk si ff rg et b lh sd ud
  | Loader_hidden b => mk si ff rg et eh b sd ud
  | SearchBtn_disabled b => mk si ff rg et eh lh b ud
  | UploadBtn_disabled b => mk si ff rg et eh lh sd b
  | FileInput_clear => mk si [] rg et eh lh sd ud
  end.

(** Everything an action does that the page, the user or the network can
    observe, in the order it happens. *)
Inductive Event : Type :=
| EvDom (op : DomOp)
| EvTimeout (callback : DomOp) (ms : nat)
| EvFetch (req : Request)
| EvPrompt (msg : string) (dflt : option string)
| EvConfirm (msg : string).

(** The script's code as a tree of effects.  [Fetch] is [await fetch(..)]:
    the request leaves and the code resumes with what the promise settles to.
    [Call q k] is the call of an async function whose promise nobody awaits:
    [q] runs up to its first [await], then [k] goes on. *)
Inductive Prog (A : Type) : Type :=
| Ret (a : A)
| Throw (e : JsError)
| Read (k : Dom -> Prog A)
| Write (op : DomOp) (k : Prog A)
| SetTimeout (callback : DomOp) (ms : nat) (k : Prog A)
| Fetch (req : Request) (k : FetchResult -> Prog A)
| Prompt (msg : string) (dflt : option string) (k : option string -> Prog A)
| Confirm (msg : string) (k : bool -> Prog A)
| Call (q : Prog unit) (k : Prog A).

Arguments Ret {A} a.
Arguments Throw {A} e.
Arguments Read {A} k.
Arguments Write {A} op k.
Arguments SetTimeout {A} callback ms k.
Arguments Fetch {A} req k.
Arguments Prompt {A} msg dflt k.
Arguments Confirm {A} msg k.
Arguments Call {A} q k.

Fixpoint bind {A B : Type} (p : Prog A) (f : A -> Prog B) : Prog B :=
  match p with
  | Ret a => f a
  | Throw e => Throw e
  | Read k => Read (fun d => bind (k d) f)
  | Write op k => Write op (bind k f)
  | SetTimeout cb ms k => SetTimeout cb ms (bind k f)
  | Fetch req k => Fetch req (fun r => bind (k r) f)
  | Prompt m d k => Prompt m d (fun r => bind (k r) f)
  | Confirm m k => Confirm m (fun r => bind (k r) f)
  | Call q k => Call q (bind k f)
  end.

Notation "x <- p ;; q" := (bind p (fun x => q))
  (at level 61, p at next level, right associativity).
Notation "p ;; q" := (bind p (fun _ => q))
  (at level 61, right associativity).

(** [try { p } catch (err) { h err }]: what [p] throws itself; an un-awaited
    call inside [p] is out of reach. *)
Fixpoint try_catch {A : Type} (p : Prog A) (h : JsError -> Prog A) : Prog A :=
  match p with
  | Ret a => Ret a
  | Throw e => h e
  | Read k => Read (fun d => try_catch (k d) h)
  | Write op k => Write op (try_catch k h)
  | SetTimeout cb ms k => SetTimeout cb ms (try_catch k h)
  | Fetch req k => Fetch req (fun r => try_catch (k r) h)
  | Prompt m d k => Prompt m d (fun r => try_catch (k r) h)
  | Confirm m k => Confirm m (fun r => try_catch (k r) h)
  | Call q k => Call q (try_catch k h)
  end.

(** [try { p } finally { f }]. *)
Fixpoint try_finally {A : Type} (p : Prog A) (f : Prog unit) : Prog A :=
  match p with
  | Ret a => f ;; Ret a
  | Throw e => f ;; Throw e
  | Read k => Read (fun d => try_finally (k d) f)
  | Write op k => Write op (try_finally k f)
  | SetTimeout cb ms k => SetTimeout cb ms (try_finally k f)
  | Fetch req k => Fetch req (fun r => try_finally (k r) f)
  | Prompt m d k => Prompt m d (fun r => try_finally (k r) f)
  | Confirm m k => Confirm m (fun r => try_finally (k r) f)
  | Call q k => Call q (try_finally k f)
  end.

Fixpoint forEach {A : Type} (l : list A) (f : A -> Prog unit) : Prog unit :=
  match l with
  | [] => Ret tt
  | x :: l' => f x ;; forEach l' f
  end.

(** The world outside the script, for one action: what the [n]-th request of
    the action is answered with, and what the user answers to a dialog. *)
Record Env : Type := {
  respond : nat -> Request -> FetchResult;
  prompt : string -> option string -> option string;
  confirm : string -> bool
}.

(** The page, the events so far, and the rejections nobody handled. *)
Record World : Type := {
  dom : Dom;
  log : list Event;
  unhandled : list JsError
}.

Inductive Completion (A : Type) : Type :=
| Normal (a : A)
| Abrupt (e : JsError).

Arguments Normal {A} a.
Arguments Abrupt {A} e.

Definition start (d : Dom) : World := {| dom := d; log := []; unhandled := [] |}.

Definition emit (ev : Event) (w : World) : World :=
  {| dom := dom w; log := (log w ++ [ev])%list; unhandled := unhandled w |}.

Definition perform (op : DomOp) (w : World) : World :=
  {| dom := apply op (dom w); log := (log w ++ [EvDom op])%list; unhandled := unhandled w |}.

Definition reject (e : JsError) (w : World) : World :=
  {| dom := dom w; log := log w; unhandled := (unhandled w ++ [e])%list |}.

Definition settle {A : Type} (c : Completion A) (w : World) : World :=
  match c with
  | Normal _ => w
  | Abrupt e => reject e w
  end.

Definition network_calls (evs : list Event) : list Request :=
  flat_map (fun ev => match ev with EvFetch r => [r] | _ => [] end) evs.

Definition notices (evs : list Event) : list string :=
  flat_map (fun ev => match ev with EvDom (ErrorBox_innerText s) => [s] | _ => [] end) evs.

(** How many requests an action has issued so far. *)
Definition calls (w : World) : nat := length (network_calls (log w)).

(** One action run to its end.  [run] executes the code in the foreground;
    [run_call q rest] executes an un-awaited [q]: up to its first [await] at
    once, then the caller's remaining code [rest], and the remainder of [q]
    when the caller is done (a rejection of [q] reaches nobody).  The caller
    first is the order of the event loop when the caller does not wait for
    anything itself after the call, which is how the script calls
    ([handlers_call_last] below). *)
Fixpoint run {A : Type} (env : Env) (p : Prog A) (w : World) {struct p}
  : World * Completion A :=
  match p with
  | Ret a => (w, Normal a)
  | Throw e => (w, Abrupt e)
  | Read k => run env (k (dom w)) w
  | Write op k => run env k (perform op w)
  | SetTimeout cb ms k => run env k (emit (EvTimeout cb ms) w)
  | Fetch req k =>
      run env (k (respond env (calls w) req)) (emit (EvFetch req) w)
  | Prompt m d k => run env (k (prompt env m d)) (emit (EvPrompt m d) w)
  | Confirm m k => run env (k (confirm env m)) (emit (EvConfirm m) w)
  | Call q k => run_call env q (fun w' => run env k w') w
  end
with run_call {A : Type} (env : Env) (q : Prog unit)
  (rest : World -> World * Completion A) (w : World) {struct q}
  : World * Completion A :=
  match q with
  | Ret _ => rest w
  | Throw e => rest (reject e w)
  | Read k => run_call env (k (dom w)) rest w
  | Write op k => run_call env k rest (perform op w)
  | SetTimeout cb ms k => run_call env k rest (emit (EvTimeout cb ms) w)
  | Fetch req k =>
      let answer := respond env (calls w) req in
      let (w1, c) := rest (emit (EvFetch req) w) in
      let (w2, c') := run env (k answer) w1 in
      (settle c' w2, c)
  | Prompt m d k => run_call env (k (prompt env m d)) rest (emit (EvPrompt m d) w)
  | Confirm m k => run_call env (k (confirm env m)) rest (emit (EvConfirm m) w)
  | Call q' k => run_call env q' (fun w' => run_call env k rest w') w
  end.

(** An event listener: the promise the handler returns is dropped, so what
    it throws is a rejection nobody handled. *)
Definition dispatch (env : Env) (handler : Prog unit) (d : Dom) : World :=
  let (w, c) := run env handler (start d) in settle c w.

(* ================================================================== *)
(** ** [script.js] *)
(* ================================================================== *)

Section Script.

Variable CONFIG : Config.

Definition fetch (req : Request) : Prog Response :=
  Fetch req (fun r =>
    match r with
    | Rejected e => Throw e
    | Resolved response => Ret response
    end).

(** [await response.json()]. *)
Definition response_json (response : Response) : Prog Body :=
  match json response with
  | inl e => Throw e
  | inr data => Ret data
  end.

Definition bearer : string * string :=
  ("Authorization", "Bearer " ++ ACCESS_TOKEN CONFIG).

(** *** 1. API functions *)

Definition search_filter (searchTerm : string) : string :=
  "name contains '" ++ searchTerm ++ "' and trashed = false".

Definition search_url (searchTerm : string) : string :=
  let query := Js.encodeURIComponent (search_filter searchTerm) in
  BASE_URL CONFIG ++ "?q=" ++ query ++ "&fields=files(id,name,mimeType)".

Definition search_request (searchTerm : string) : Request :=
  {| method := "GET"; url := search_url searchTerm;
     headers := [bearer]; body := NoBody |}.

Definition apiSearchFiles (searchTerm : string) : Prog Body :=
  response <- fetch (search_request searchTerm) ;;
  if negb (ok response) then Throw (Error "Failed to fetch files.")
  else response_json response.

Definition upload_request (file : File) : Request :=
  {| method := "POST";
     url := "https://www.googleapis.com/upload/drive/v3/files?uploadType=media";
     headers := [bearer; ("Content-Type", file_type file)];
     body := Blob file |}.

Definition apiUploadFile (file : File) : Prog Body :=
  response <- fetch (upload_request file) ;;
  if negb (ok response) then Throw (Error "Upload failed.")
  else response_json response.

Definition file_url (fileId : option string) : string :=
  BASE_URL CONFIG ++ "/" ++ Js.toStr fileId.

Definition update_request (fileId : option string) (newName : string) : Request :=
  {| method := "PATCH"; url := file_url fileId;
     headers := [bearer; ("Content-Type", "application/json")];
     body := Text (Js.JSON_stringify_name newName) |}.

Definition apiUpdateFile (fileId : option string) (newName : string) : Prog unit :=
  response <- fetch (update_request fileId newName) ;;
  if negb (ok response) then Throw (Error "Update failed.") else Ret tt.

Definition delete_request (fileId : option string) : Request :=
  {| method := "DELETE"; url := file_url fileId;
     headers := [bearer]; body := NoBody |}.

Definition apiDeleteFile (fileId : option string) : Prog unit :=
  response <- fetch (delete_request fileId) ;;
  if negb (ok response) then Throw (Error "Delete failed.") else Ret tt.

(** *** 2. DOM manipulation functions *)

Definition toggleLoading (isLoading : bool) : Prog unit :=
  Write (Loader_hidden (negb isLoading))
    (Write (SearchBtn_disabled isLoading)
      (Write (UploadBtn_disabled isLoading) (Ret tt))).

Definition showError (msg : string) : Prog unit :=
  Write (ErrorBox_innerText msg)
    (Write (ErrorBox_hidden false)
      (SetTimeout (ErrorBox_hidden true) 5000 (Ret tt))).

(** The template literal assigned to [card.innerHTML]. *)
Definition card_markup (name id : string) : string :=
  Js.LF ++
  "            <h3>📄 " ++ name ++ "</h3>" ++ Js.LF ++
  "            <p>ID: " ++ id ++ "</p>" ++ Js.LF ++
  "            <div class=" ++ Js.DQ ++ "card-actions" ++ Js.DQ ++ ">" ++ Js.LF ++
  "                <button class=" ++ Js.DQ ++ "edit-btn" ++ Js.DQ ++
    " data-id=" ++ Js.DQ ++ id ++ Js.DQ ++
    " data-name=" ++ Js.DQ ++ name ++ Js.DQ ++ ">Rename</button>" ++ Js.LF ++
  "                <button class=" ++ Js.DQ ++ "delete-btn" ++ Js.DQ ++
    " data-id=" ++ Js.DQ ++ id ++ Js.DQ ++ ">Delete</button>" ++ Js.LF ++
  "            </div>" ++ Js.LF ++
  "        ".

Definition card_of (file : JsObject) : Card :=
  {| className := "file-card";
     innerHTML := card_markup (Js.toStr (get file "name")) (Js.toStr (get file "id"));
     listening := false |}.

(** Assigns [onclick] to every [.delete-btn] and [.edit-btn] of the document;
    the two handlers are [delete_onclick] and [edit_onclick] below. *)
Definition setupCardListeners : Prog unit :=
  Write Cards_onclick (Ret tt).

(** Reading [length] of [undefined] throws; the text is the engine's. *)
Definition length_of_undefined : JsError :=
  TypeError "Cannot read properties of undefined (reading 'length')".

Definition displayFiles (files : option (list JsObject)) : Prog unit :=
  Write ResultsGrid_clear (Ret tt) ;;
  match files with
  | None => Throw length_of_undefined
  | Some files =>
      if length files =? 0 then showError "No results found."
      else
        forEach files (fun file => Write (ResultsGrid_appendChild (card_of file)) (Ret tt)) ;;
        setupCardListeners
  end.

(** *** 3. Controller functions *)

Definition handleSearch : Prog unit :=
  Read (fun d =>
    let term := Js.trim (searchInput_value d) in
    if negb (Js.truthy term) then showError "Please enter a search term."
    else
      toggleLoading true ;;
      try_finally
        (try_catch
           (data <- apiSearchFiles term ;; displayFiles (files data))
           (fun err => showError (message err)))
        (toggleLoading false)).

Definition handleUpload : Prog unit :=
  Read (fun d =>
    match fileInput_files d with
    | [] => showError "Select a file first."
    | file :: _ =>
        toggleLoading true ;;
        try_finally
          (try_catch
             (uploadedFile <- apiUploadFile file ;;
              apiUpdateFile (get (props uploadedFile) "id") (file_name file) ;;
              showError "File uploaded successfully!" ;;
              Write FileInput_clear (Ret tt))
             (fun err => showError (message err)))
          (toggleLoading false)
    end).

(** [btn.dataset.key] of a button with the attributes [btn]. *)
Definition dataset (btn : list (string * string)) (key : string) : option string :=
  Js.lookup ("data-" ++ key) btn.

Definition delete_onclick (btn : list (string * string)) : Prog unit :=
  Confirm "Delete this file?" (fun yes =>
    if yes then
      toggleLoading true ;;
      try_finally
        (try_catch
           (apiDeleteFile (dataset btn "id") ;; Call handleSearch (Ret tt))
           (fun err => showError (message err)))
        (toggleLoading false)
    else Ret tt).

Definition edit_onclick (btn : list (string * string)) : Prog unit :=
  Prompt "Enter new name:" (dataset btn "name") (fun newName =>
    match newName with
    | Some newName =>
        if Js.truthy newName && negb (String.eqb (Js.trim newName) "") then
          toggleLoading true ;;
          try_finally
            (try_catch
               (apiUpdateFile (dataset btn "id") (Js.trim newName) ;;
                Call handleSearch (Ret tt))
               (fun err => showError (message err)))
            (toggleLoading false)
        else Ret tt
    | None => Ret tt
    end).

(** The buttons of a rendered page that carry a handler: those the class
    selector finds in the cards that have been wired. *)
Definition buttons (cls : string) (d : Dom) : list (list (string * string)) :=
  flat_map
    (fun c =>
       if listening c then
         match Html.tokenize (innerHTML c) with
         | Some ts => Html.select cls ts
         | None => []
         end
       else [])
    (resultsGrid d).

(** The two states [toggleLoading] leaves the page in: the indicator shown
    and both triggers disabled, or the indicator hidden and both enabled. *)
Definition busy (d : Dom) : bool :=
  negb (loader_hidden d) && searchBtn_disabled d && uploadBtn_disabled d.

Definition idle (d : Dom) : bool :=
  loader_hidden d && negb (searchBtn_disabled d) && negb (uploadBtn_disabled d).

(** Whether an event moves the indicator or a trigger. *)
Definition touches_busy (ev : Event) : bool :=
  match ev with
  | EvDom (Loader_hidden _) | EvDom (SearchBtn_disabled _)
  | EvDom (UploadBtn_disabled _) => true
  | _ => false
  end.

End Script.

(* ================================================================== *)
(** ** Vocabulary of the properties *)
(* ================================================================== *)

(** Code in which every async call is awaited. *)
Fixpoint no_call {A : Type} (p : Prog A) : Prop :=
  match p with
  | Ret _ | Throw _ => True
  | Read k => forall d, no_call (k d)
  | Write _ k | SetTimeout _ _ k => no_call k
  | Fetch _ k => forall r, no_call (k r)
  | Prompt _ _ k => forall r, no_call (k r)
  | Confirm _ k => forall r, no_call (k r)
  | Call _ _ => False
  end.

(** Code that runs to its end without yielding: no request, no call. *)
Fixpoint awaits_nothing {A : Type} (p : Prog A) : Prop :=
  match p with
  | Ret _ | Throw _ => True
  | Read k => forall d, awaits_nothing (k d)
  | Write _ k | SetTimeout _ _ k => awaits_nothing k
  | Prompt _ _ k => forall r, awaits_nothing (k r)
  | Confirm _ k => forall r, awaits_nothing (k r)
  | Fetch _ _ | Call _ _ => False
  end.

(** Code in which a call that is not awaited is the last thing that can
    yield: the caller never waits for anything while the callee does, so the
    order in which [run] resumes them is the only one there is. *)
Fixpoint calls_last {A : Type} (p : Prog A) : Prop :=
  match p with
  | Ret _ | Throw _ => True
  | Read k => forall d, calls_last (k d)
  | Write _ k | SetTimeout _ _ k => calls_last k
  | Fetch _ k => forall r, calls_last (k r)
  | Prompt _ _ k => forall r, calls_last (k r)
  | Confirm _ k => forall r, calls_last (k r)
  | Call q k => no_call q /\ awaits_nothing k
  end.

(** The page after the DOM writes of a log. *)
Definition replay (evs : list Event) (d : Dom) : Dom :=
  fold_left (fun d ev => match ev with EvDom op => apply op d | _ => d end) evs d.

(** The events of [toggleLoading(true)], of [toggleLoading(false)] and of
    [showError(msg)]. *)
Definition busy_on : list Event :=
  [EvDom (Loader_hidden false); EvDom (SearchBtn_disabled true);
   EvDom (UploadBtn_disabled true)].

Definition busy_off : list Event :=
  [EvDom (Loader_hidden true); EvDom (SearchBtn_disabled false);
   EvDom (UploadBtn_disabled false)].

Definition notice (msg : string) : list Event :=
  [EvDom (ErrorBox_innerText msg); EvDom (ErrorBox_hidden false);
   EvTimeout (ErrorBox_hidden true) 5000].

(** Text that the tokenizer passes through unchanged, in an element and in a
    double-quoted attribute alike: no NUL, CR, double quote, ampersand or
    less-than sign. *)
Definition inert_char (a : ascii) : bool :=
  negb (Html.isc 0 a || Html.isc 13 a || Html.isc 34 a || Html.isc 38 a || Html.isc 60 a).

Fixpoint inert (s : string) : bool :=
  match s with
  | "" => true
  | String a s' => inert_char a && inert s'
  end.

(** Text that the tokenizer, in an element, reads as the text it is. *)
Definition reads_as_text (s : string) : Prop :=
  Html.steps Html.Data s = Some (Html.Data, Html.text s).




(** The world after a sequence of events. *)
Definition after (evs : list Event) (w : World) : World :=
  {| dom := replay evs (dom w); log := (log w ++ evs)%list; unhandled := unhandled w |}.

(** The events of [displayFiles(files)], up to the exception it may end in. *)
Definition rendering (files : option (list JsObject)) : list Event :=
  EvDom ResultsGrid_clear ::
  match files with
  | None => []
  | Some [] => notice "No results found."
  | Some l =>
      (map (fun file => EvDom (ResultsGrid_appendChild (card_of file))) l
       ++ [EvDom Cards_onclick])%list
  end.

(** The events of [handleSearch] between the answer to its request and the
    [finally] block. *)
Definition search_events (r : FetchResult) : list Event :=
  match r with
  | Rejected e => notice (message e)
  | Resolved response =>
      if ok response then
        match json response with
        | inl e => notice (message e)
        | inr data =>
            (rendering (files data)
             ++ match files data with
                | None => notice (message length_of_undefined)
                | Some _ => []
                end)%list
        end
      else notice "Failed to fetch files."
  end.


(** The four controller actions and the four transport calls. *)
Inductive Action : Type :=
| Search
| Upload
| Rename (btn : list (string * string))
| Delete (btn : list (string * string)).

Inductive ApiCall : Type :=
| SearchFiles (searchTerm : string)
| UploadFile (file : File)
| UpdateFile (fileId : option string) (newName : string)
| DeleteFile (fileId : option string).

Definition failure_message (c : ApiCall) : string :=
  match c with
  | SearchFiles _ => "Failed to fetch files."
  | UploadFile _ => "Upload failed."
  | UpdateFile _ _ => "Update failed."
  | DeleteFile _ => "Delete failed."
  end.

Section Vocabulary.

Variable CONFIG : Config.

Definition handler (a : Action) : Prog unit :=
  match a with
  | Search => handleSearch CONFIG
  | Upload => handleUpload CONFIG
  | Rename btn => edit_onclick CONFIG btn
  | Delete btn => delete_onclick CONFIG btn
  end.

Definition request_of (c : ApiCall) : Request :=
  match c with
  | SearchFiles searchTerm => search_request CONFIG searchTerm
  | UploadFile file => upload_request CONFIG file
  | UpdateFile fileId newName => update_request CONFIG fileId newName
  | DeleteFile fileId => delete_request CONFIG fileId
  end.

(** The transport function behind a call, its result dropped. *)
Definition api (c : ApiCall) : Prog unit :=
  match c with
  | SearchFiles searchTerm => apiSearchFiles CONFIG searchTerm ;; Ret tt
  | UploadFile file => apiUploadFile CONFIG file ;; Ret tt
  | UpdateFile fileId newName => apiUpdateFile CONFIG fileId newName
  | DeleteFile fileId => apiDeleteFile CONFIG fileId
  end.

(** [handleSearch] from the answer to its request on. *)
Definition on_search_response (r : FetchResult) : Prog unit :=
  try_finally
    (try_catch
       (data <-
          (response <-
             match r with
             | Rejected e => Throw e
             | Resolved response => Ret response
             end ;;
           if negb (ok response) then Throw (Error "Failed to fetch files.")
           else response_json response) ;;
        displayFiles (files data))
       (fun err => showError (message err)))
    (toggleLoading false).

End Vocabulary.

Section Flows.

Variable CONFIG : Config.
Variable env : Env.

(** The events of [handleUpload] between [toggleLoading(true)] and the
    [finally] block, for the selected [file]. *)
Definition upload_events (file : File) : list Event :=
  let up := upload_request CONFIG file in
  EvFetch up ::
  match respond env 0 up with
  | Rejected e => notice (message e)
  | Resolved r1 =>
      if ok r1 then
        match json r1 with
        | inl e => notice (message e)
        | inr uploadedFile =>
            let ren :=
              update_request CONFIG (get (props uploadedFile) "id") (file_name file) in
            EvFetch ren ::
            match respond env 1 ren with
            | Rejected e => notice (message e)
            | Resolved r2 =>
                if ok r2 then
                  (notice "File uploaded successfully!" ++ [EvDom FileInput_clear])%list
                else notice "Update failed."
            end
        end
      else notice "Upload failed."
  end.

(** The un-awaited [handleSearch()] of a card action, as the [n]-th request
    of the action: what happens at once, and what happens when the caller has
    finished. *)
Definition refresh_now (d : Dom) : list Event :=
  let term := Js.trim (searchInput_value d) in
  if Js.truthy term then (busy_on ++ [EvFetch (search_request CONFIG term)])%list
  else notice "Please enter a search term.".

Definition refresh_later (n : nat) (d : Dom) : list Event :=
  let term := Js.trim (searchInput_value d) in
  if Js.truthy term
  then (search_events (respond env n (search_request CONFIG term)) ++ busy_off)%list
  else [].

(** The events of a card action once the user has agreed: the request that
    changes the remote file, then the refresh or the notice of failure. *)
Definition mutation_events (d : Dom) (req : Request) (failure : string) : list Event :=
  (busy_on ++ [EvFetch req] ++
   match respond env 0 req with
   | Rejected e => notice (message e) ++ busy_off
   | Resolved r =>
       if ok r then refresh_now d ++ busy_off ++ refresh_later 1 d
       else notice failure ++ busy_off
   end)%list.

Definition delete_events (btn : list (string * string)) (d : Dom) : list Event :=
  EvConfirm "Delete this file?" ::
  if confirm env "Delete this file?"
  then mutation_events d (delete_request CONFIG (dataset btn "id")) "Delete failed."
  else [].

Definition edit_events (btn : list (string * string)) (d : Dom) : list Event :=
  EvPrompt "Enter new name:" (dataset btn "name") ::
  match prompt env "Enter new name:" (dataset btn "name") with
  | Some newName =>
      if Js.truthy newName && negb (String.eqb (Js.trim newName) "")
      then mutation_events d
             (update_request CONFIG (dataset btn "id") (Js.trim newName)) "Update failed."
      else []
  | None => []
  end.

End Flows.

Definition indent12 : string := Js.LF ++ "            ".
Definition indent16 : string := Js.LF ++ "                ".


(** The tokens of a card whose name and identifier are inert text. *)
Definition card_tokens (name id : string) : list Html.token :=
  (Html.text indent12 ++
   [Html.StartTag "h3" []] ++ Html.text ("📄 " ++ name) ++ [Html.EndTag "h3"] ++
   Html.text indent12 ++
   [Html.StartTag "p" []] ++ Html.text ("ID: " ++ id) ++ [Html.EndTag "p"] ++
   Html.text indent12 ++
   [Html.StartTag "div" [("class", "card-actions")]] ++
   Html.text indent16 ++
   [Html.StartTag "button" [("class", "edit-btn"); ("data-id", id); ("data-name", name)]] ++
   Html.text "Rename" ++ [Html.EndTag "button"] ++
   Html.text indent16 ++
   [Html.StartTag "button" [("class", "delete-btn"); ("data-id", id)]] ++
   Html.text "Delete" ++ [Html.EndTag "button"] ++
   Html.text indent12 ++
   [Html.EndTag "div"] ++
   Html.text (Js.LF ++ "        "))%list.

(** What a failed request leaves at the end of the log. *)
Definition ends_in_failure (w : World) (c : ApiCall) : Prop :=
  exists evs,
    log w = (evs ++ notice (failure_message c) ++ busy_off)%list
    /\ notices evs = [] /\ unhandled w = [].

(** *** Sample data for concrete runs *)

Definition sample_config : Config :=
  {| BASE_URL := "https://www.googleapis.com/drive/v3/files"; ACCESS_TOKEN := "token" |}.

(** A page with a search term typed and files picked, nothing rendered. *)
Definition page (term : string) (picked : list File) : Dom :=
  {| searchInput_value := term; fileInput_files := picked; resultsGrid := [];
     errorBox_innerText := ""; errorBox_hidden := true; loader_hidden := true;
     searchBtn_disabled := false; uploadBtn_disabled := false |}.

(** A world that answers the requests of an action with [l], in order, and
    the dialogs with [typed] and [yes]. *)
Definition answers (l : list FetchResult) (typed : option string) (yes : bool) : Env :=
  {| respond := fun n _ => nth n l (Rejected (TypeError "Failed to fetch"));
     prompt := fun _ _ => typed;
     confirm := fun _ => yes |}.

Definition success (data : Body) : FetchResult :=
  Resolved {| ok := true; json := inr data |}.

Definition refusal : FetchResult :=
  Resolved {| ok := false; json := inl (SyntaxError "Unexpected end of JSON input") |}.

Definition sample_file : File :=
  {| file_name := "notes.txt"; file_type := "text/plain"; file_bytes := "hello" |}.

(** *** Further vocabulary *)

(** The timers an action sets: the callback and the delay of each. *)
Definition timeouts (evs : list Event) : list (DomOp * nat) :=
  flat_map (fun ev => match ev with EvTimeout cb ms => [(cb, ms)] | _ => [] end) evs.

(** The timer of [showError]: hide the error box after five seconds. *)
Definition error_timer : DomOp * nat := (ErrorBox_hidden true, 5000).


(** A page with another grid. *)
Definition with_grid (g : list Card) (d : Dom) : Dom :=
  {| searchInput_value := searchInput_value d; fileInput_files := fileInput_files d;
     resultsGrid := g;
     errorBox_innerText := errorBox_innerText d; errorBox_hidden := errorBox_hidden d;
     loader_hidden := loader_hidden d; searchBtn_disabled := searchBtn_disabled d;
     uploadBtn_disabled := uploadBtn_disabled d |}.

(** The response body of an answer that is [ok] and decodes. *)
Definition decoded (r : FetchResult) : option Body :=
  match r with
  | Resolved response =>
      if ok response then
        match json response with
        | inr data => Some data
        | inl _ => None
        end
      else None
  | Rejected _ => None
  end.

(** Whether an answer is an [ok] response, decodable or not. *)
Definition accepted (r : FetchResult) : bool :=
  match r with
  | Resolved response => ok response
  | Rejected _ => false
  end.


Section Events.

Variable CONFIG : Config.
Variable env : Env.

(** The events of an action, by cases on what the world answers. *)
Definition action_events (a : Action) (d : Dom) : list Event :=
  match a with
  | Search =>
      let term := Js.trim (searchInput_value d) in
      if Js.truthy term then
        (busy_on ++ [EvFetch (search_request CONFIG term)]
         ++ search_events (respond env 0 (search_request CONFIG term)) ++ busy_off)%list
      else notice "Please enter a search term."
  | Upload =>
      match fileInput_files d with
      | [] => notice "Select a file first."
      | file :: _ => (busy_on ++ upload_events CONFIG env file ++ busy_off)%list
      end
  | Rename btn => edit_events CONFIG env btn d
  | Delete btn => delete_events CONFIG env btn d
  end.

End Events.

(* ================================================================== *)
(** ** Properties of the built-ins *)
(* ================================================================== *)

Lemma append_nil_r s : s ++ "" = s.
Proof. induction s; simpl; congruence. Qed.

Lemma append_assoc s1 s2 s3 : (s1 ++ s2) ++ s3 = s1 ++ s2 ++ s3.
Proof. induction s1; simpl; congruence. Qed.

Lemma truthy_false s : Js.truthy s = false <-> s = "".
Proof. destruct s; simpl; split; congruence. Qed.

Lemma truthy_true s : Js.truthy s = true <-> s <> "".
Proof. destruct s; simpl; split; congruence. Qed.

(** A string of ASCII white space only is empty once trimmed. *)
Lemma trim_white_space s :
  forallb Js.ws1 (list_ascii_of_string s) = true -> Js.trim s = "".
Proof.
  intros H. unfold Js.trim, Js.trimStart.
  assert (Hs : Js.strip false s = "").
  { induction s as [|a s IH]; [reflexivity|].
    simpl in H. apply andb_true_iff in H. destruct H as [Ha Hs].
    cbn [Js.strip]. rewrite Ha. auto. }
  rewrite Hs. reflexivity.
Qed.




Lemma strip_prefix_app p s : Js.strip_prefix p (p ++ s) = Some s.
Proof.
  induction p as [|a p IH]; simpl; [destruct s; reflexivity|].
  now rewrite Ascii.eqb_refl.
Qed.


Lemma json_unescape_escape a tail :
  Js.json_unescape (Js.json_escape a ++ tail) =
    match Js.json_unescape tail with
    | Some (v, r) => Some (String a v, r)
    | None => None
    end.
Proof.
  destruct a as [[] [] [] [] [] [] [] []]; reflexivity.
Qed.

Lemma json_unescape_quote s rest :
  Js.json_unescape (Js.json_escape_all s ++ Js.DQ ++ rest) = Some (s, rest).
Proof.
  induction s as [|a s IH]; [reflexivity|].
  cbn [Js.json_escape_all]. rewrite append_assoc, json_unescape_escape, IH. reflexivity.
Qed.

(** The body of a rename names the file as it was given. *)
Lemma JSON_parse_stringify_name v :
  Js.JSON_parse_name (Js.JSON_stringify_name v) = Some v.
Proof.
  unfold Js.JSON_parse_name, Js.JSON_stringify_name, Js.json_quote.
  rewrite !append_assoc.
  change ("{" ++ Js.DQ ++ "name" ++ Js.DQ ++ ":" ++ Js.DQ ++ Js.json_escape_all v ++ Js.DQ ++ "}")
    with (("{" ++ Js.DQ ++ "name" ++ Js.DQ ++ ":" ++ Js.DQ)
          ++ (Js.json_escape_all v ++ Js.DQ ++ "}")).
  rewrite strip_prefix_app, json_unescape_quote. reflexivity.
Qed.

(* ================================================================== *)
(** ** The tokenizer on the card template *)
(* ================================================================== *)

Lemma tokenize_from_app st s r :
  Html.tokenize_from st (s ++ r) =
    match Html.steps st s with
    | None => None
    | Some (st', out) =>
        match Html.tokenize_from st' r with
        | None => None
        | Some rest => Some (out ++ rest)%list
        end
    end.
Proof.
  revert st. induction s as [|a s IH]; intros st; simpl.
  - destruct (Html.tokenize_from st r); reflexivity.
  - destruct (Html.step st a) as [[st' out]|]; [|reflexivity].
    rewrite IH. destruct (Html.steps st' s) as [[st'' out']|]; [|reflexivity].
    destruct (Html.tokenize_from st'' r); [|reflexivity].
    now rewrite app_assoc.
Qed.

Lemma inert_char_spec a :
  inert_char a = true ->
  Html.isc 0 a = false /\ Html.isc 13 a = false /\ Html.isc 34 a = false
  /\ Html.isc 38 a = false /\ Html.isc 60 a = false.
Proof.
  unfold inert_char. rewrite negb_true_iff, !orb_false_iff. tauto.
Qed.

Lemma steps_inert_data s :
  inert s = true -> Html.steps Html.Data s = Some (Html.Data, Html.text s).
Proof.
  induction s as [|a s IH]; simpl; [reflexivity|].
  rewrite andb_true_iff. intros [Ha Hs].
  destruct (inert_char_spec a Ha) as (H0 & H13 & _ & H38 & H60).
  unfold Html.step, Html.data_step. rewrite H0, H13, H38, H60. simpl.
  rewrite (IH Hs). reflexivity.
Qed.

Lemma append_snoc v a s : Html.snoc v a ++ s = v ++ String a s.
Proof. unfold Html.snoc. induction v; simpl; congruence. Qed.

Lemma steps_inert_attribute t n v s :
  inert s = true ->
  Html.steps (Html.AttrValueDQ t n v) s = Some (Html.AttrValueDQ t n (v ++ s), []).
Proof.
  revert v. induction s as [|a s IH]; intros v; simpl.
  - intros _. now rewrite append_nil_r.
  - rewrite andb_true_iff. intros [Ha Hs].
    destruct (inert_char_spec a Ha) as (H0 & H13 & H34 & H38 & _).
    unfold Html.step. rewrite H0, H13, H34, H38. simpl.
    rewrite (IH _ Hs), append_snoc. reflexivity.
Qed.

Lemma leading_text_text s ts :
  Html.leading_text (Html.text s ++ ts) = s ++ Html.leading_text ts.
Proof. unfold Html.text. induction s; simpl; congruence. Qed.



Ltac segment :=
  rewrite tokenize_from_app;
  match goal with
  | |- context [Html.steps Html.Data ?s] =>
      rewrite (steps_inert_data s) by assumption
  | |- context [Html.steps (Html.AttrValueDQ ?t ?n ?v) ?s] =>
      rewrite (steps_inert_attribute t n v s) by assumption
  | |- context [Html.steps ?st ?s] =>
      let v := eval vm_compute in (Html.steps st s) in
      change (Html.steps st s) with v
  end;
  cbv beta iota.

Lemma tokenize_card name id :
  inert name = true -> inert id = true ->
  Html.tokenize (card_markup name id) = Some (card_tokens name id).
Proof.
  intros Hname Hid. unfold Html.tokenize, card_markup.
  repeat segment.
  match goal with
  | |- context [Html.tokenize_from ?st ?s] =>
      let v := eval vm_compute in (Html.tokenize_from st s) in
      change (Html.tokenize_from st s) with v
  end.
  cbv beta iota. reflexivity.
Qed.

(* ================================================================== *)
(** ** The interpreter on awaited code *)
(* ================================================================== *)

Lemma no_call_bind {A B : Type} (p : Prog A) (f : A -> Prog B) :
  no_call p -> (forall a, no_call (f a)) -> no_call (bind p f).
Proof.
  intros Hp Hf. induction p; simpl in *; auto; contradiction.
Qed.

Lemma no_call_try_catch {A : Type} (p : Prog A) (h : JsError -> Prog A) :
  no_call p -> (forall e, no_call (h e)) -> no_call (try_catch p h).
Proof.
  intros Hp Hh. induction p; simpl in *; auto; contradiction.
Qed.

Lemma no_call_try_finally {A : Type} (p : Prog A) (f : Prog unit) :
  no_call p -> no_call f -> no_call (try_finally p f).
Proof.
  intros Hp Hf. induction p; simpl in *; auto;
    try (apply no_call_bind; simpl; auto); contradiction.
Qed.

Lemma no_call_forEach {A : Type} (l : list A) (f : A -> Prog unit) :
  (forall x, no_call (f x)) -> no_call (forEach l f).
Proof.
  intros Hf. induction l; simpl; auto. apply no_call_bind; auto.
Qed.

Lemma run_bind {A B : Type} env (p : Prog A) (f : A -> Prog B) w :
  no_call p ->
  run env (bind p f) w =
    match run env p w with
    | (w1, Normal a) => run env (f a) w1
    | (w1, Abrupt e) => (w1, Abrupt e)
    end.
Proof.
  revert w. induction p; intros w Hp; simpl in *; auto; contradiction.
Qed.

Lemma run_try_catch {A : Type} env (p : Prog A) (h : JsError -> Prog A) w :
  no_call p ->
  run env (try_catch p h) w =
    match run env p w with
    | (w1, Normal a) => (w1, Normal a)
    | (w1, Abrupt e) => run env (h e) w1
    end.
Proof.
  revert w. induction p; intros w Hp; simpl in *; auto; contradiction.
Qed.

Lemma run_try_finally {A : Type} env (p : Prog A) (f : Prog unit) w :
  no_call p -> no_call f ->
  run env (try_finally p f) w =
    match run env p w with
    | (w1, c) =>
        match run env f w1 with
        | (w2, Normal _) => (w2, c)
        | (w2, Abrupt e) => (w2, Abrupt e)
        end
    end.
Proof.
  revert w. induction p; intros w Hp Hf; simpl in *; auto; try contradiction.
  - rewrite run_bind by assumption. destruct (run env f w) as [w2 [[]|e']]; reflexivity.
  - rewrite run_bind by assumption. destruct (run env f w) as [w2 [[]|e']]; reflexivity.
Qed.

(** *** Worlds as logs *)

Lemma after_nil w : after [] w = w.
Proof. destruct w; unfold after; simpl. now rewrite app_nil_r. Qed.

Lemma after_app evs1 evs2 w : after evs2 (after evs1 w) = after (evs1 ++ evs2) w.
Proof.
  unfold after, replay; simpl. now rewrite fold_left_app, app_assoc.
Qed.

Lemma perform_after op w : perform op w = after [EvDom op] w.
Proof. reflexivity. Qed.

Lemma emit_timeout cb ms w : emit (EvTimeout cb ms) w = after [EvTimeout cb ms] w.
Proof. reflexivity. Qed.

Lemma emit_fetch req w : emit (EvFetch req) w = after [EvFetch req] w.
Proof. reflexivity. Qed.

Lemma emit_prompt m d w : emit (EvPrompt m d) w = after [EvPrompt m d] w.
Proof. reflexivity. Qed.

Lemma emit_confirm m w : emit (EvConfirm m) w = after [EvConfirm m] w.
Proof. reflexivity. Qed.

Create Rewrite HintDb world.
#[local] Hint Rewrite perform_after emit_timeout emit_fetch emit_prompt emit_confirm
  after_app : world.

Ltac worlds := autorewrite with world; cbn [app].

Lemma network_calls_app l1 l2 :
  network_calls (l1 ++ l2) = (network_calls l1 ++ network_calls l2)%list.
Proof. apply flat_map_app. Qed.

Lemma notices_app l1 l2 : notices (l1 ++ l2) = (notices l1 ++ notices l2)%list.
Proof. apply flat_map_app. Qed.

Lemma calls_after evs w : calls (after evs w) = calls w + length (network_calls evs).
Proof. unfold calls, after; simpl. now rewrite network_calls_app, length_app. Qed.

Lemma calls_start d : calls (start d) = 0.
Proof. reflexivity. Qed.

Lemma searchInput_value_apply op d :
  searchInput_value (apply op d) = searchInput_value d.
Proof. destruct d, op; reflexivity. Qed.

Lemma searchInput_value_replay evs d :
  searchInput_value (replay evs d) = searchInput_value d.
Proof.
  revert d. induction evs as [|ev evs IH]; intros d; [reflexivity|].
  unfold replay in *. simpl. rewrite IH. destruct ev; auto using searchInput_value_apply.
Qed.

Ltac exec_step :=
  cbn [run run_call bind try_catch try_finally toggleLoading showError fetch
       response_json apiSearchFiles apiUploadFile apiUpdateFile apiDeleteFile
       negb settle ok json];
  autorewrite with world;
  rewrite ?calls_after, ?calls_start;
  cbn [app network_calls flat_map length Nat.add].

Ltac exec := repeat (progress exec_step).

Section Runs.

Variable CONFIG : Config.
Variable env : Env.

#[local] Arguments displayFiles : simpl never.
#[local] Arguments search_request : simpl never.
#[local] Arguments upload_request : simpl never.
#[local] Arguments update_request : simpl never.
#[local] Arguments delete_request : simpl never.
#[local] Arguments Js.trim : simpl never.
#[local] Arguments dataset : simpl never.
#[local] Arguments on_search_response : simpl never.
#[local] Arguments handleSearch : simpl never.

Lemma run_forEach_cards (l : list JsObject) w :
  run env (forEach l (fun file => Write (ResultsGrid_appendChild (card_of file)) (Ret tt))) w
  = (after (map (fun file => EvDom (ResultsGrid_appendChild (card_of file))) l) w, Normal tt).
Proof.
  revert w. induction l as [|x l IH]; intros w; simpl.
  - now rewrite after_nil.
  - rewrite IH. worlds. reflexivity.
Qed.

Lemma run_showError msg w :
  run env (showError msg) w = (after (notice msg) w, Normal tt).
Proof. simpl. worlds. reflexivity. Qed.

Lemma run_toggleLoading b w :
  run env (toggleLoading b) w = (after (if b then busy_on else busy_off) w, Normal tt).
Proof. destruct b; simpl; worlds; reflexivity. Qed.

Lemma no_call_displayFiles files : no_call (displayFiles files).
Proof.
  destruct files as [l|]; simpl; auto.
  destruct (length l =? 0); simpl; auto.
  apply no_call_bind; [apply no_call_forEach|]; simpl; auto.
Qed.

Lemma run_displayFiles files w :
  run env (displayFiles files) w =
    (after (rendering files) w,
     match files with None => Abrupt length_of_undefined | Some _ => Normal tt end).
Proof.
  destruct files as [[|x l]|]; try (simpl; worlds; reflexivity).
  unfold displayFiles. cbn [bind run length Nat.eqb].
  rewrite run_bind.
  - cbn [forEach]. rewrite run_bind by exact I. cbn [run]. rewrite run_forEach_cards.
    cbn [setupCardListeners run]. worlds. reflexivity.
  - apply (no_call_forEach (x :: l)). intros; exact I.
Qed.

Lemma handleSearch_resume :
  handleSearch CONFIG =
    Read (fun d =>
      let term := Js.trim (searchInput_value d) in
      if negb (Js.truthy term) then showError "Please enter a search term."
      else
        Write (Loader_hidden false) (Write (SearchBtn_disabled true)
          (Write (UploadBtn_disabled true)
            (Fetch (search_request CONFIG term) on_search_response)))).
Proof. reflexivity. Qed.

Lemma run_on_search_response r w :
  run env (on_search_response r) w = (after (search_events r ++ busy_off) w, Normal tt).
Proof.
  unfold on_search_response.
  destruct r as [e|[[|] [e|data]]]; cbn; try (worlds; reflexivity).
  rewrite run_try_finally
    by (try apply no_call_try_catch; try apply no_call_displayFiles; simpl; auto).
  rewrite run_try_catch by apply no_call_displayFiles.
  rewrite run_displayFiles.
  destruct (files data); cbn; worlds; rewrite ?app_nil_r; try reflexivity.
Qed.

Lemma run_handleSearch w :
  run env (handleSearch CONFIG) w =
    let term := Js.trim (searchInput_value (dom w)) in
    if Js.truthy term then
      let req := search_request CONFIG term in
      (after (busy_on ++ [EvFetch req] ++ search_events (respond env (calls w) req)
              ++ busy_off) w, Normal tt)
    else (after (notice "Please enter a search term.") w, Normal tt).
Proof.
  rewrite handleSearch_resume. cbn [run].
  destruct (Js.truthy (Js.trim (searchInput_value (dom w)))); cbn [negb].
  2: { apply run_showError. }
  exec. rewrite Nat.add_0_r, run_on_search_response. worlds. reflexivity.
Qed.

Lemma run_call_handleSearch {A : Type} (rest : World -> World * Completion A) w :
  run_call env (handleSearch CONFIG) rest w =
    let (w1, c) := rest (after (refresh_now CONFIG (dom w)) w) in
    (after (refresh_later CONFIG env (calls w) (dom w)) w1, c).
Proof.
  rewrite handleSearch_resume. unfold refresh_now, refresh_later. cbn [run_call].
  destruct (Js.truthy (Js.trim (searchInput_value (dom w)))); cbn [negb].
  - exec. rewrite Nat.add_0_r.
    destruct (rest _) as [w1 c]. rewrite run_on_search_response. reflexivity.
  - exec. destruct (rest _) as [w1 c]. now rewrite after_nil.
Qed.

Lemma refresh_now_replay evs d : refresh_now CONFIG (replay evs d) = refresh_now CONFIG d.
Proof. unfold refresh_now. now rewrite searchInput_value_replay. Qed.

Lemma refresh_later_replay n evs d :
  refresh_later CONFIG env n (replay evs d) = refresh_later CONFIG env n d.
Proof. unfold refresh_later. now rewrite searchInput_value_replay. Qed.

Lemma dispatch_handleSearch d :
  dispatch env (handleSearch CONFIG) d =
    let term := Js.trim (searchInput_value d) in
    after
      (if Js.truthy term then
         let req := search_request CONFIG term in
         busy_on ++ [EvFetch req] ++ search_events (respond env 0 req) ++ busy_off
       else notice "Please enter a search term.")%list
      (start d).
Proof.
  unfold dispatch. rewrite run_handleSearch. cbn [start dom].
  destruct (Js.truthy _); reflexivity.
Qed.

Lemma dispatch_handleUpload d :
  dispatch env (handleUpload CONFIG) d =
    after
      match fileInput_files d with
      | [] => notice "Select a file first."
      | file :: _ => (busy_on ++ upload_events CONFIG env file ++ busy_off)%list
      end
      (start d).
Proof.
  unfold dispatch, handleUpload, upload_events. cbn [run start dom].
  destruct (fileInput_files d) as [|file rest]; [exec; reflexivity|].
  exec.
  destruct (respond env 0 _) as [e|[[|] [e|data]]]; exec; try reflexivity.
  destruct (respond env 1 _) as [e|[[|] j]]; exec; reflexivity.
Qed.

Lemma dispatch_delete_onclick btn d :
  dispatch env (delete_onclick CONFIG btn) d = after (delete_events CONFIG env btn d) (start d).
Proof.
  unfold dispatch, delete_onclick, delete_events, mutation_events. cbn [run].
  destruct (confirm env _); [|reflexivity].
  exec.
  destruct (respond env 0 _) as [e|[[|] j]]; exec; try reflexivity.
  rewrite run_call_handleSearch. exec. cbn [after dom]. 
  rewrite refresh_now_replay, refresh_later_replay. reflexivity.
Qed.

Lemma dispatch_edit_onclick btn d :
  dispatch env (edit_onclick CONFIG btn) d = after (edit_events CONFIG env btn d) (start d).
Proof.
  unfold dispatch, edit_onclick, edit_events, mutation_events. cbn [run].
  destruct (prompt env _ _) as [newName|]; [|reflexivity].
  destruct (Js.truthy newName && _); [|reflexivity].
  exec.
  destruct (respond env 0 _) as [e|[[|] j]]; exec; try reflexivity.
  rewrite run_call_handleSearch. exec. cbn [after dom].
  rewrite refresh_now_replay, refresh_later_replay. reflexivity.
Qed.

End Runs.

(** *** The order of resumption *)

Section Order.
Variable CONFIG : Config.

Lemma no_call_calls_last {A : Type} (p : Prog A) : no_call p -> calls_last p.
Proof. induction p; simpl; auto; contradiction. Qed.

Lemma no_call_showError msg : no_call (showError msg).
Proof. exact I. Qed.

Lemma no_call_handleSearch : no_call (handleSearch CONFIG).
Proof.
  rewrite handleSearch_resume. cbn [no_call]. intros d.
  destruct (negb _); [exact I|]. cbn [no_call]. intros r.
  unfold on_search_response.
  apply no_call_try_finally; [|exact I].
  apply no_call_try_catch; [|intros; exact I].
  apply no_call_bind; [|intros; apply no_call_displayFiles].
  destruct r as [e|[[|] [e|data]]]; exact I.
Qed.

Lemma no_call_handleUpload : no_call (handleUpload CONFIG).
Proof.
  unfold handleUpload. cbn [no_call]. intros d.
  destruct (fileInput_files d) as [|file others]; [exact I|].
  cbn. intros [e|[[|] [e|data]]]; cbn; auto.
  intros [e|[[|] j]]; cbn; auto.
Qed.

(** In every action an un-awaited call is the last thing that can yield. *)
Lemma handlers_call_last a : calls_last (handler CONFIG a).
Proof.
  destruct a as [| |btn|btn]; cbn [handler].
  - apply no_call_calls_last, no_call_handleSearch.
  - apply no_call_calls_last, no_call_handleUpload.
  - unfold edit_onclick. cbn [calls_last]. intros [newName|]; [|exact I].
    destruct (Js.truthy newName && _); [|exact I].
    cbn. intros [e|[[|] j]]; cbn; auto using no_call_handleSearch.
  - unfold delete_onclick. cbn [calls_last]. intros [|]; [|exact I].
    cbn. intros [e|[[|] j]]; cbn; auto using no_call_handleSearch.
Qed.
End Order.

(* ================================================================== *)
(** ** Properties of the controller *)
(* ================================================================== *)

Lemma network_calls_rendering files : network_calls (rendering files) = [].
Proof.
  destruct files as [[|x l]|]; try reflexivity.
  unfold rendering. cbn [network_calls flat_map app].
  change (network_calls
            (map (fun file => EvDom (ResultsGrid_appendChild (card_of file))) (x :: l)
             ++ [EvDom Cards_onclick]) = []).
  rewrite network_calls_app. simpl.
  induction l; simpl; auto.
Qed.

Lemma network_calls_search_events r : network_calls (search_events r) = [].
Proof.
  destruct r as [e|[[|] [e|data]]]; try reflexivity.
  unfold search_events. cbn [ok json]. rewrite network_calls_app, network_calls_rendering.
  destruct (files data); reflexivity.
Qed.

Lemma notices_rendering files :
  notices (rendering files) =
    match files with Some [] => ["No results found."] | _ => [] end.
Proof.
  destruct files as [[|x l]|]; try reflexivity.
  unfold rendering. cbn [notices flat_map app].
  change (notices
            (map (fun file => EvDom (ResultsGrid_appendChild (card_of file))) (x :: l)
             ++ [EvDom Cards_onclick]) = []).
  rewrite notices_app. simpl.
  induction l; simpl; auto.
Qed.

Lemma quiet_app l1 l2 :
  forallb (fun ev => negb (touches_busy ev)) (l1 ++ l2) =
  forallb (fun ev => negb (touches_busy ev)) l1
  && forallb (fun ev => negb (touches_busy ev)) l2.
Proof. apply forallb_app. Qed.

Lemma quiet_rendering files :
  forallb (fun ev => negb (touches_busy ev)) (rendering files) = true.
Proof.
  destruct files as [[|x l]|]; try reflexivity.
  unfold rendering. cbn [forallb touches_busy negb andb].
  rewrite quiet_app. cbn [forallb touches_busy negb andb]. rewrite andb_true_r.
  generalize (x :: l). intros l'. induction l'; simpl; auto.
Qed.

Lemma quiet_search_events r :
  forallb (fun ev => negb (touches_busy ev)) (search_events r) = true.
Proof.
  destruct r as [e|[[|] [e|data]]]; try reflexivity.
  unfold search_events. cbn [ok json]. rewrite quiet_app, quiet_rendering.
  destruct (files data); reflexivity.
Qed.

Lemma idle_after_busy_off evs d : idle (replay (evs ++ busy_off) d) = true.
Proof.
  unfold replay. rewrite fold_left_app. 
  destruct (fold_left _ evs d). reflexivity.
Qed.

Section Claims.

Variable CONFIG : Config.
Variable env : Env.

(** C5.  A search whose field is empty once trimmed (empty, or white space
    only) issues no request and shows the notice asking for a search term. *)
Theorem search_blank_term_issues_no_call (d : Dom) :
  Js.trim (searchInput_value d) = "" ->
  let w := dispatch env (handleSearch CONFIG) d in
  network_calls (log w) = []
  /\ notices (log w) = ["Please enter a search term."]
  /\ errorBox_innerText (dom w) = "Please enter a search term."
  /\ errorBox_hidden (dom w) = false
  /\ unhandled w = [].
Proof.
  intros Hterm. rewrite dispatch_handleSearch. cbv zeta. rewrite Hterm.
  destruct d; repeat split; reflexivity.
Qed.

(** C7.  An upload with no file selected issues no request and tells the
    user to select one. *)
Theorem upload_without_file_issues_no_call (d : Dom) :
  fileInput_files d = [] ->
  let w := dispatch env (handleUpload CONFIG) d in
  network_calls (log w) = []
  /\ notices (log w) = ["Select a file first."]
  /\ errorBox_innerText (dom w) = "Select a file first."
  /\ errorBox_hidden (dom w) = false
  /\ unhandled w = [].
Proof.
  intros Hfile. rewrite dispatch_handleUpload. cbv zeta. rewrite Hfile.
  destruct d; repeat split; reflexivity.
Qed.

(** C6.  A rename whose prompt is dismissed, or answered with an empty or
    white-space-only name, issues no request and leaves the page, and with it
    the name the card shows, as it was: the prompt is all that happens. *)
Theorem rename_blank_name_issues_no_call (btn : list (string * string)) (d : Dom) :
  (forall newName,
     prompt env "Enter new name:" (dataset btn "name") = Some newName ->
     Js.trim newName = "") ->
  let w := dispatch env (edit_onclick CONFIG btn) d in
  network_calls (log w) = []
  /\ log w = [EvPrompt "Enter new name:" (dataset btn "name")]
  /\ dom w = d
  /\ unhandled w = [].
Proof.
  intros Hblank. rewrite dispatch_edit_onclick. cbv zeta. unfold edit_events.
  destruct (prompt env _ _) as [newName|].
  - rewrite (Hblank newName eq_refl). cbn [String.eqb negb]. rewrite andb_false_r.
    repeat split; reflexivity.
  - repeat split; reflexivity.
Qed.

(** C8.  A search with a non-empty trimmed term shows the indicator and
    disables both triggers, then issues its request; nothing moves them until
    the three writes that end the action, whatever the request is answered
    with; the action ends with the page idle. *)
Theorem search_is_bracketed_by_busy (d : Dom) :
  Js.trim (searchInput_value d) <> "" ->
  let w := dispatch env (handleSearch CONFIG) d in
  exists middle,
    log w = (busy_on ++ [EvFetch (search_request CONFIG (Js.trim (searchInput_value d)))]
             ++ middle ++ busy_off)%list
    /\ busy (replay busy_on d) = true
    /\ forallb (fun ev => negb (touches_busy ev)) middle = true
    /\ network_calls middle = []
    /\ idle (dom w) = true
    /\ unhandled w = [].
Proof.
  intros Hterm. apply truthy_true in Hterm.
  rewrite dispatch_handleSearch. cbv zeta. rewrite Hterm.
  exists (search_events (respond env 0 (search_request CONFIG (Js.trim (searchInput_value d))))).
  repeat split.
  - destruct d; reflexivity.
  - apply quiet_search_events.
  - apply network_calls_search_events.
  - cbn [after dom start].
    rewrite (app_assoc busy_on), (app_assoc (busy_on ++ _)). apply idle_after_busy_off.
Qed.


End Claims.

Lemma network_calls_cons ev l :
  network_calls (ev :: l) =
    (match ev with EvFetch r => [r] | _ => [] end ++ network_calls l)%list.
Proof. reflexivity. Qed.

Lemma network_calls_nil : network_calls [] = [].
Proof. reflexivity. Qed.

Create Rewrite HintDb calls.
#[local] Hint Rewrite network_calls_app network_calls_cons network_calls_nil
  network_calls_search_events network_calls_rendering : calls.

Ltac count_calls := autorewrite with calls; cbn [app].

Section Failures.

Variable CONFIG : Config.
Variable env : Env.

Lemma api_raises (c : ApiCall) (r : Response) (w0 : World) :
  respond env (calls w0) (request_of CONFIG c) = Resolved r -> ok r = false ->
  run env (api CONFIG c) w0
  = (emit (EvFetch (request_of CONFIG c)) w0, Abrupt (Error (failure_message c))).
Proof.
  intros Hr Hok. destruct c; cbn [api request_of failure_message];
    cbn [run bind apiSearchFiles apiUploadFile apiUpdateFile apiDeleteFile fetch];
    cbn [request_of] in Hr; rewrite Hr; cbn [run bind]; rewrite Hok; reflexivity.
Qed.

Lemma request_of_method (c : ApiCall) :
  method (request_of CONFIG c) =
    match c with
    | SearchFiles _ => "GET"
    | UploadFile _ => "POST"
    | UpdateFile _ _ => "PATCH"
    | DeleteFile _ => "DELETE"
    end.
Proof. destruct c; reflexivity. Qed.

Lemma shown_after_notice evs msg d :
  let d' := replay (evs ++ notice msg ++ busy_off) d in
  errorBox_innerText d' = msg /\ errorBox_hidden d' = false.
Proof.
  unfold replay. rewrite fold_left_app. destruct (fold_left _ evs d). split; reflexivity.
Qed.


Lemma nth_error_one {A : Type} (x y : A) i :
  nth_error [x] i = Some y -> i = 0 /\ x = y.
Proof. destruct i as [|[|i]]; simpl; intros H; inversion H; auto. Qed.

Lemma nth_error_two {A : Type} (x1 x2 y : A) i :
  nth_error [x1; x2] i = Some y -> (i = 0 /\ x1 = y) \/ (i = 1 /\ x2 = y).
Proof. destruct i as [|[|[|i]]]; simpl; intros H; inversion H; auto. Qed.

Lemma method_clash (c : ApiCall) (req : Request) :
  req = request_of CONFIG c ->
  method req = match c with
               | SearchFiles _ => "GET"
               | UploadFile _ => "POST"
               | UpdateFile _ _ => "PATCH"
               | DeleteFile _ => "DELETE"
               end.
Proof. intros ->. apply request_of_method. Qed.

Lemma search_failure d i c r :
  let w := dispatch env (handleSearch CONFIG) d in
  nth_error (network_calls (log w)) i = Some (request_of CONFIG c) ->
  respond env i (request_of CONFIG c) = Resolved r -> ok r = false ->
  ends_in_failure w c.
Proof.
  cbv zeta. rewrite dispatch_handleSearch. cbv zeta.
  destruct (Js.truthy _).
  - cbn [after log start app]. count_calls.
    intros H Hr Hok. apply nth_error_one in H. destruct H as [-> H].
    pose proof (method_clash c _ H) as Hm. rewrite <- H in Hr.
    exists (busy_on ++ [EvFetch (search_request CONFIG (Js.trim (searchInput_value d)))])%list.
    rewrite Hr. cbn [search_events]. rewrite Hok.
    destruct c; try discriminate Hm. repeat split; reflexivity.
  - cbn. intros H. destruct i; discriminate H.
Qed.


Lemma upload_failure d i c r :
  let w := dispatch env (handleUpload CONFIG) d in
  nth_error (network_calls (log w)) i = Some (request_of CONFIG c) ->
  respond env i (request_of CONFIG c) = Resolved r -> ok r = false ->
  ends_in_failure w c.
Proof.
  cbv zeta. rewrite dispatch_handleUpload.
  destruct (fileInput_files d) as [|file others].
  { cbn. intros H. destruct i; discriminate H. }
  unfold upload_events. cbn [after log start app].
  destruct (respond env 0 _) as [e|r1] eqn:H0.
  { count_calls. intros H Hr Hok. apply nth_error_one in H. destruct H as [-> H].
    rewrite <- H, H0 in Hr. discriminate Hr. }
  destruct (ok r1) eqn:Hok1.
  2: { count_calls. intros H Hr Hok. apply nth_error_one in H. destruct H as [-> H].
       pose proof (method_clash c _ H) as Hm.
       exists (busy_on ++ [EvFetch (upload_request CONFIG file)])%list.
       destruct c; try discriminate Hm.
       repeat split; reflexivity. }
  destruct (json r1) as [e|data] eqn:Hj.
  { count_calls. intros H Hr Hok. apply nth_error_one in H. destruct H as [-> H].
    rewrite <- H, H0 in Hr. inversion Hr; subst r. congruence. }
  destruct (respond env 1 _) as [e|r2] eqn:H1.
  { count_calls. intros H Hr Hok. apply nth_error_two in H.
    destruct H as [[-> H]|[-> H]]; rewrite <- H in Hr; rewrite ?H0, ?H1 in Hr;
      inversion Hr; subst r; congruence. }
  destruct (ok r2) eqn:Hok2.
  { count_calls. intros H Hr Hok. apply nth_error_two in H.
    destruct H as [[-> H]|[-> H]]; rewrite <- H in Hr; rewrite ?H0, ?H1 in Hr;
      inversion Hr; subst r; congruence. }
  count_calls. intros H Hr Hok. apply nth_error_two in H.
  destruct H as [[-> H]|[-> H]]; rewrite <- H in Hr; rewrite ?H0, ?H1 in Hr;
    inversion Hr; subst r; try congruence.
  pose proof (method_clash c _ H) as Hm.
  exists (busy_on ++ [EvFetch (upload_request CONFIG file);
                      EvFetch (update_request CONFIG (get (props data) "id")
                                 (file_name file))])%list.
  destruct c; try discriminate Hm.
  repeat split; reflexivity.
Qed.

Lemma mutation_failure d req failure first i c r :
  (forall c', req = request_of CONFIG c' -> failure = failure_message c') ->
  let evs := (first :: mutation_events CONFIG env d req failure)%list in
  notices [first] = [] -> network_calls [first] = [] ->
  nth_error (network_calls evs) i = Some (request_of CONFIG c) ->
  respond env i (request_of CONFIG c) = Resolved r -> ok r = false ->
  exists evs',
    evs = (evs' ++ notice (failure_message c) ++ busy_off)%list /\ notices evs' = [].
Proof.
  intros Hmsg evs Hn Hc. subst evs.
  change (first :: mutation_events CONFIG env d req failure)
    with ([first] ++ mutation_events CONFIG env d req failure)%list.
  unfold mutation_events.
  destruct (respond env 0 req) as [e|[[|] j]] eqn:H0; cbn [ok].
  - rewrite network_calls_app, Hc. count_calls. intros H Hr Hok.
    apply nth_error_one in H. destruct H as [-> H].
    rewrite <- H, H0 in Hr. discriminate Hr.
  - unfold refresh_now, refresh_later.
    destruct (Js.truthy _).
    + rewrite network_calls_app, Hc. count_calls.
      intros H Hr Hok. apply nth_error_two in H.
      destruct H as [[-> H]|[-> H]]; rewrite <- H in Hr.
      * rewrite H0 in Hr. inversion Hr; subst r. discriminate Hok.
      * pose proof (method_clash c _ H) as Hm. rewrite Hr. cbn [search_events].
        rewrite Hok.
        exists ([first] ++ busy_on ++ [EvFetch req] ++
                (busy_on ++ [EvFetch (search_request CONFIG (Js.trim (searchInput_value d)))])
                ++ busy_off)%list.
        destruct c; try discriminate Hm. split.
        -- rewrite <- !app_assoc. reflexivity.
        -- rewrite !notices_app, Hn. reflexivity.
    + rewrite network_calls_app, Hc. count_calls. intros H Hr Hok.
      apply nth_error_one in H. destruct H as [-> H].
      rewrite <- H, H0 in Hr. inversion Hr; subst r. discriminate Hok.
  - rewrite network_calls_app, Hc. count_calls. intros H Hr Hok.
    apply nth_error_one in H. destruct H as [-> H].
    rewrite (Hmsg c H).
    exists ([first] ++ busy_on ++ [EvFetch req])%list. split.
    + rewrite <- !app_assoc. reflexivity.
    + rewrite !notices_app, Hn. reflexivity.
Qed.


Lemma dispatch_replay a d :
  dom (dispatch env (handler CONFIG a) d) = replay (log (dispatch env (handler CONFIG a) d)) d.
Proof.
  destruct a; cbn [handler];
    rewrite ?dispatch_handleSearch, ?dispatch_handleUpload, ?dispatch_edit_onclick,
            ?dispatch_delete_onclick; reflexivity.
Qed.

Lemma action_failure a d i c r :
  let w := dispatch env (handler CONFIG a) d in
  nth_error (network_calls (log w)) i = Some (request_of CONFIG c) ->
  respond env i (request_of CONFIG c) = Resolved r -> ok r = false ->
  ends_in_failure w c.
Proof.
  destruct a as [| |btn|btn]; cbn [handler].
  - apply search_failure.
  - apply upload_failure.
  - cbv zeta. rewrite dispatch_edit_onclick. unfold ends_in_failure, edit_events.
    cbn [after log start app unhandled].
    destruct (prompt env _ _) as [newName|].
    2: { cbn. intros H. destruct i; discriminate H. }
    destruct (Js.truthy newName && _).
    2: { cbn. intros H. destruct i; discriminate H. }
    intros H Hr Hok.
    destruct (mutation_failure d
                (update_request CONFIG (dataset btn "id") (Js.trim newName))
                "Update failed." (EvPrompt "Enter new name:" (dataset btn "name")) i c r)
      as [evs [Hevs Hn]]; auto.
    + intros c' Hc'. pose proof (method_clash c' _ Hc') as Hm.
      destruct c'; try discriminate Hm. reflexivity.
    + exists evs. auto.
  - cbv zeta. rewrite dispatch_delete_onclick. unfold ends_in_failure, delete_events.
    cbn [after log start app unhandled].
    destruct (confirm env _).
    2: { cbn. intros H. destruct i; discriminate H. }
    intros H Hr Hok.
    destruct (mutation_failure d (delete_request CONFIG (dataset btn "id"))
                "Delete failed." (EvConfirm "Delete this file?") i c r)
      as [evs [Hevs Hn]]; auto.
    + intros c' Hc'. pose proof (method_clash c' _ Hc') as Hm.
      destruct c'; try discriminate Hm. reflexivity.
    + exists evs. auto.
Qed.

(** C1.  Take any request of any controller action that is answered with a
    response that is not [ok].  The transport function that issued it throws
    an [Error] carrying the fixed message of its operation; the action shows
    exactly one notice, that message, which is what the error box holds,
    visible, when the action ends; and no rejection is left unhandled. *)
Theorem failed_request_is_reported (a : Action) (d : Dom) (i : nat)
    (c : ApiCall) (r : Response) :
  let w := dispatch env (handler CONFIG a) d in
  nth_error (network_calls (log w)) i = Some (request_of CONFIG c) ->
  respond env i (request_of CONFIG c) = Resolved r ->
  ok r = false ->
  (forall w0, calls w0 = i ->
     snd (run env (api CONFIG c) w0) = Abrupt (Error (failure_message c)))
  /\ notices (log w) = [failure_message c]
  /\ errorBox_innerText (dom w) = failure_message c
  /\ errorBox_hidden (dom w) = false
  /\ unhandled w = [].
Proof.
  intros w Hreq Hr Hok. subst w.
  destruct (action_failure a d i c r Hreq Hr Hok) as [evs [Hlog [Hn Hu]]].
  split; [|split; [|split; [|split]]].
  - intros w0 Hw0. rewrite (api_raises c r w0); [reflexivity| |assumption].
    now rewrite Hw0.
  - rewrite Hlog, !notices_app, Hn. reflexivity.
  - rewrite dispatch_replay, Hlog. apply shown_after_notice.
  - rewrite dispatch_replay, Hlog. apply shown_after_notice.
  - exact Hu.
Qed.

End Failures.

Section Refresh.
Variable CONFIG : Config.
Variable env : Env.

Lemma idle_ends_busy_off evs d : 
  (exists evs', evs = evs' ++ busy_off)%list -> idle (replay evs d) = true.
Proof. intros [evs' ->]. apply idle_after_busy_off. Qed.

Lemma mutation_ends_busy_off first d req failure :
  exists evs,
    (first :: mutation_events CONFIG env d req failure = evs ++ busy_off)%list.
Proof.
  unfold mutation_events, refresh_later.
  destruct (respond env 0 req) as [e|[[|] j]]; cbn [ok].
  - exists ([first] ++ busy_on ++ [EvFetch req] ++ notice (message e))%list.
    now rewrite <- !app_assoc.
  - destruct (Js.truthy _).
    + eexists ([first] ++ busy_on ++ [EvFetch req] ++ refresh_now CONFIG d ++ busy_off
               ++ search_events _)%list.
      rewrite <- !app_assoc. reflexivity.
    + exists ([first] ++ busy_on ++ [EvFetch req] ++ refresh_now CONFIG d)%list.
      rewrite <- !app_assoc, app_nil_r. reflexivity.
  - exists ([first] ++ busy_on ++ [EvFetch req] ++ notice failure)%list.
    now rewrite <- !app_assoc.
Qed.

(** A rename or a delete that issues a request ends with the page idle: the
    search it starts without awaiting clears the busy state once more when
    it ends. *)
Lemma card_action_ends_idle (a : Action) (d : Dom) :
  let w := dispatch env (handler CONFIG a) d in
  network_calls (log w) <> [] -> idle (dom w) = true.
Proof.
  cbv zeta. rewrite dispatch_replay.
  destruct a as [| |btn|btn]; cbn [handler].
  - rewrite dispatch_handleSearch. cbv zeta. destruct (Js.truthy _).
    + intros _. apply idle_ends_busy_off.
      eexists (busy_on ++ [EvFetch _] ++ search_events _)%list.
      cbn [after log start]. rewrite <- !app_assoc. reflexivity.
    + intros H. exfalso. apply H. reflexivity.
  - rewrite dispatch_handleUpload. destruct (fileInput_files d).
    + intros H. exfalso. apply H. reflexivity.
    + intros _. apply idle_ends_busy_off.
      eexists (busy_on ++ upload_events CONFIG env _)%list.
      cbn [after log start]. rewrite <- !app_assoc. reflexivity.
  - rewrite dispatch_edit_onclick. cbn [after log start app]. unfold edit_events.
    destruct (prompt env _ _) as [newName|]; [|intros H; exfalso; apply H; reflexivity].
    destruct (Js.truthy newName && _); [|intros H; exfalso; apply H; reflexivity].
    intros _. apply idle_ends_busy_off, mutation_ends_busy_off.
  - rewrite dispatch_delete_onclick. cbn [after log start app]. unfold delete_events.
    destruct (confirm env _); [|intros H; exfalso; apply H; reflexivity].
    intros _. apply idle_ends_busy_off, mutation_ends_busy_off.
Qed.
End Refresh.

(* ================================================================== *)
(** ** Properties of the transport *)
(* ================================================================== *)

Section Transport.

Variable CONFIG : Config.
Variable env : Env.




End Transport.


(* ================================================================== *)
(** ** Properties of the rendering *)
(* ================================================================== *)

Lemma text_after_start_text n s ts :
  Html.text_after_start n (Html.text s ++ ts) = Html.text_after_start n ts.
Proof. unfold Html.text. induction s; simpl; auto. Qed.

Lemma select_text cls s ts : Html.select cls (Html.text s ++ ts) = Html.select cls ts.
Proof. unfold Html.text. induction s; simpl; auto. Qed.

Ltac read_tokens :=
  repeat (progress
            (rewrite ?text_after_start_text, ?leading_text_text, ?select_text;
             cbn [app Html.text_after_start Html.leading_text Html.select
                  String.eqb Ascii.eqb Bool.eqb])).





Lemma inert_reads_as_text s : inert s = true -> reads_as_text s.
Proof. apply steps_inert_data. Qed.



Lemma select_card_tokens name id :
  Html.select "edit-btn" (card_tokens name id)
    = [[("class", "edit-btn"); ("data-id", id); ("data-name", name)]]
  /\ Html.select "delete-btn" (card_tokens name id)
    = [[("class", "delete-btn"); ("data-id", id)]].
Proof.
  unfold card_tokens. split; read_tokens; reflexivity.
Qed.

Lemma buttons_rendering (files : list JsObject) d :
  (forall file, In file files ->
     inert (Js.toStr (get file "name")) = true
     /\ inert (Js.toStr (get file "id")) = true) ->
  resultsGrid d = map (fun file => wire (card_of file)) files ->
  buttons "edit-btn" d =
    map (fun file => [("class", "edit-btn"); ("data-id", Js.toStr (get file "id"));
                      ("data-name", Js.toStr (get file "name"))]) files
  /\ buttons "delete-btn" d =
    map (fun file => [("class", "delete-btn"); ("data-id", Js.toStr (get file "id"))]) files.
Proof.
  intros Hinert Hgrid. unfold buttons. rewrite Hgrid. clear Hgrid.
  induction files as [|file files IH]; [split; reflexivity|].
  destruct (Hinert file (or_introl eq_refl)) as [Hn Hi].
  destruct IH as [IHe IHd]; [intros f Hf; apply Hinert; now right|].
  cbn [map flat_map wire card_of listening innerHTML].
  rewrite (tokenize_card _ _ Hn Hi), IHe, IHd.
  destruct (select_card_tokens (Js.toStr (get file "name")) (Js.toStr (get file "id")))
    as [-> ->].
  split; reflexivity.
Qed.

Section Rendering.

Variable env : Env.




End Rendering.

(* ================================================================== *)
(** ** Every action at once *)
(* ================================================================== *)

Lemma notices_cons ev l :
  notices (ev :: l) =
    (match ev with EvDom (ErrorBox_innerText s) => [s] | _ => [] end ++ notices l)%list.
Proof. reflexivity. Qed.

Lemma notices_nil : notices [] = [].
Proof. reflexivity. Qed.

Lemma timeouts_app l1 l2 : timeouts (l1 ++ l2) = (timeouts l1 ++ timeouts l2)%list.
Proof. apply flat_map_app. Qed.

Lemma timeouts_cons ev l :
  timeouts (ev :: l) =
    (match ev with EvTimeout cb ms => [(cb, ms)] | _ => [] end ++ timeouts l)%list.
Proof. reflexivity. Qed.

Lemma timeouts_nil : timeouts [] = [].
Proof. reflexivity. Qed.

Lemma timeouts_rendering files :
  timeouts (rendering files) =
    match files with Some [] => [(ErrorBox_hidden true, 5000)] | _ => [] end.
Proof.
  destruct files as [[|x l]|]; try reflexivity.
  unfold rendering. rewrite timeouts_cons, timeouts_app. cbn [app].
  generalize (x :: l). intros l'. induction l'; simpl; auto.
Qed.

Lemma replay_app evs1 evs2 d : replay (evs1 ++ evs2) d = replay evs2 (replay evs1 d).
Proof. apply fold_left_app. Qed.

Lemma replay_cards (l : list JsObject) d :
  replay (map (fun file => EvDom (ResultsGrid_appendChild (card_of file))) l) d
  = with_grid (resultsGrid d ++ map card_of l) d.
Proof.
  revert d. induction l as [|x l IH]; intros d.
  - destruct d. unfold with_grid. cbn. now rewrite app_nil_r.
  - change (replay (map (fun file => EvDom (ResultsGrid_appendChild (card_of file))) (x :: l)) d)
      with (replay (map (fun file => EvDom (ResultsGrid_appendChild (card_of file))) l)
              (apply (ResultsGrid_appendChild (card_of x)) d)).
    rewrite IH. destruct d. unfold with_grid. cbn. now rewrite <- app_assoc.
Qed.

(** What rendering does to the page. *)
Lemma replay_rendering files d :
  replay (rendering files) d =
    match files with
    | None => with_grid [] d
    | Some [] => replay (notice "No results found.") (with_grid [] d)
    | Some l => with_grid (map (fun file => wire (card_of file)) l) d
    end.
Proof.
  destruct files as [[|x l]|]; try (destruct d; reflexivity).
  unfold rendering.
  change (EvDom ResultsGrid_clear :: ?evs) with ([EvDom ResultsGrid_clear] ++ evs)%list.
  rewrite !replay_app, replay_cards. destruct d. unfold with_grid. cbn. now rewrite map_map.
Qed.

Section Actions.

Variable CONFIG : Config.
Variable env : Env.

Lemma dispatch_action a d :
  dispatch env (handler CONFIG a) d = after (action_events CONFIG env a d) (start d).
Proof.
  destruct a; cbn [handler action_events].
  - rewrite dispatch_handleSearch. cbv zeta. destruct (Js.truthy _); reflexivity.
  - apply dispatch_handleUpload.
  - apply dispatch_edit_onclick.
  - apply dispatch_delete_onclick.
Qed.

Lemma log_action a d :
  log (dispatch env (handler CONFIG a) d) = action_events CONFIG env a d.
Proof. now rewrite dispatch_action. Qed.

Lemma dom_action a d :
  dom (dispatch env (handler CONFIG a) d) = replay (action_events CONFIG env a d) d.
Proof. now rewrite dispatch_action. Qed.

Lemma unhandled_action a d : unhandled (dispatch env (handler CONFIG a) d) = [].
Proof. now rewrite dispatch_action. Qed.

End Actions.

(* ================================================================== *)
(** ** Every outcome of every action *)
(* ================================================================== *)

(** The three blocks of events, observed as wholes. *)

Lemma network_calls_notice msg : network_calls (notice msg) = [].
Proof. reflexivity. Qed.

Lemma network_calls_busy_on : network_calls busy_on = [].
Proof. reflexivity. Qed.

Lemma network_calls_busy_off : network_calls busy_off = [].
Proof. reflexivity. Qed.

Lemma notices_notice msg : notices (notice msg) = [msg].
Proof. reflexivity. Qed.

Lemma notices_busy_on : notices busy_on = [].
Proof. reflexivity. Qed.

Lemma notices_busy_off : notices busy_off = [].
Proof. reflexivity. Qed.

Lemma timeouts_notice msg : timeouts (notice msg) = [error_timer].
Proof. reflexivity. Qed.

Lemma timeouts_busy_on : timeouts busy_on = [].
Proof. reflexivity. Qed.

Lemma timeouts_busy_off : timeouts busy_off = [].
Proof. reflexivity. Qed.

Lemma replay_nil d : replay [] d = d.
Proof. reflexivity. Qed.

Lemma replay_dom op evs d : replay (EvDom op :: evs) d = replay evs (apply op d).
Proof. reflexivity. Qed.

Lemma replay_fetch req evs d : replay (EvFetch req :: evs) d = replay evs d.
Proof. reflexivity. Qed.

Lemma replay_prompt msg dflt evs d : replay (EvPrompt msg dflt :: evs) d = replay evs d.
Proof. reflexivity. Qed.

Lemma replay_confirm msg evs d : replay (EvConfirm msg :: evs) d = replay evs d.
Proof. reflexivity. Qed.

Lemma replay_notice msg d :
  replay (notice msg) d = apply (ErrorBox_hidden false) (apply (ErrorBox_innerText msg) d).
Proof. reflexivity. Qed.

Lemma replay_busy_on d :
  replay busy_on d =
    apply (UploadBtn_disabled true) (apply (SearchBtn_disabled true) (apply (Loader_hidden false) d)).
Proof. reflexivity. Qed.

Lemma replay_busy_off d :
  replay busy_off d =
    apply (UploadBtn_disabled false)
      (apply (SearchBtn_disabled false) (apply (Loader_hidden true) d)).
Proof. reflexivity. Qed.

(** The test of the rename handler, for a name that is not blank. *)
Lemma named newName :
  Js.trim newName <> "" ->
  Js.truthy newName && negb (String.eqb (Js.trim newName) "") = true.
Proof.
  intros H. destruct newName as [|a s]; [now exfalso; apply H|].
  cbn [Js.truthy andb]. now apply negb_true_iff, String.eqb_neq.
Qed.

Create Rewrite HintDb blocks.
#[local] Hint Rewrite
  network_calls_notice network_calls_busy_on network_calls_busy_off
  network_calls_app network_calls_cons network_calls_nil
  notices_notice notices_busy_on notices_busy_off
  notices_app notices_cons notices_nil
  timeouts_notice timeouts_busy_on timeouts_busy_off
  timeouts_app timeouts_cons timeouts_nil
  replay_notice replay_busy_on replay_busy_off
  replay_app replay_nil replay_dom replay_fetch replay_prompt replay_confirm : blocks.

(** The case analysis of [split_events], on the events named by [E]. *)
Ltac split_events_in E :=
  unfold action_events, edit_events, delete_events, mutation_events, refresh_now,
    refresh_later, upload_events, search_events in E;
  repeat match type of E with
    | context [confirm ?ev ?m] => destruct (confirm ev m) eqn:?
    | context [prompt ?ev ?m ?dflt] => destruct (prompt ev m dflt) as [?newName|] eqn:?
    | context [match fileInput_files ?pg with _ => _ end] =>
        destruct (fileInput_files pg) as [|?file ?others] eqn:?
    | context [Js.truthy ?t && ?u] => destruct (Js.truthy t && u) eqn:?
    | context [respond ?ev 0 (delete_request ?C ?i)] =>
        destruct (respond ev 0 (delete_request C i)) as [?e|?r] eqn:?
    | context [respond ?ev 0 (update_request ?C ?i ?n)] =>
        destruct (respond ev 0 (update_request C i n)) as [?e|?r] eqn:?
    | context [if ok ?rs then _ else _] => destruct (ok rs) eqn:?
    | context [match json ?rs with _ => _ end] => destruct (json rs) as [?e|?data] eqn:?
    | context [match files ?bd with _ => _ end] =>
        destruct (files bd) as [[|?record ?records]|] eqn:?
    | context [Js.truthy ?t] => destruct (Js.truthy t) eqn:?
    | context [respond ?ev ?n ?rq] => destruct (respond ev n rq) as [?e|?r] eqn:?
    end.

(** Replace the run of an action by its events [evs] and its page, and split
    the events by what the world answers. *)
Ltac by_answers :=
  match goal with
  | |- let w := dispatch ?ev (handler ?C ?a) ?d in _ =>
      let w := fresh "w" in
      let evs := fresh "evs" in
      let E := fresh "E" in
      let wd := fresh "wd" in
      let wl := fresh "wl" in
      let wu := fresh "wu" in
      intros w;
      assert (log w = action_events C ev a d) by apply log_action;
      assert (dom w = replay (action_events C ev a d) d) by apply dom_action;
      assert (unhandled w = []) by apply unhandled_action;
      clearbody w; destruct w as [wd wl wu]; cbn [log dom unhandled] in *; subst wd wl wu;
      remember (action_events C ev a d) as evs eqn:E;
      try (is_var a; destruct a as [| |?btn|?btn]); split_events_in E
  end.

(** Compute what the goal observes of the events [evs], known by [E]. *)
Ltac normalize_in H :=
  repeat (rewrite_strat (topdown (hints blocks)) in H);
  rewrite ?network_calls_rendering, ?notices_rendering, ?timeouts_rendering,
    ?replay_rendering in H;
  cbn [app] in H.


Ltac observe_events E :=
  match type of E with
  | ?evs = ?L =>
      repeat match goal with
        | |- context [network_calls evs] =>
            let H := fresh in
            assert (H : network_calls evs = network_calls L) by (rewrite E; reflexivity);
            normalize_in H; rewrite H; clear H
        | |- context [notices evs] =>
            let H := fresh in
            assert (H : notices evs = notices L) by (rewrite E; reflexivity);
            normalize_in H; rewrite H; clear H
        | |- context [timeouts evs] =>
            let H := fresh in
            assert (H : timeouts evs = timeouts L) by (rewrite E; reflexivity);
            normalize_in H; rewrite H; clear H
        | |- context [replay evs ?d] =>
            let H := fresh in
            assert (H : replay evs d = replay L d) by (rewrite E; reflexivity);
            normalize_in H; rewrite H; clear H
        end;
      subst evs
  end.

(** Compute the log and the page of a run whose answers are known. *)
Ltac outcome d :=
  match goal with
  | E : ?evs = _ |- _ =>
      is_var evs;
      match type of evs with list Event => observe_events E end
  end;
  destruct d;
  cbn [searchInput_value fileInput_files resultsGrid errorBox_innerText errorBox_hidden
       loader_hidden searchBtn_disabled uploadBtn_disabled] in *;
  cbn.

#[local] Opaque notice busy_on busy_off error_timer.

(** Read [decoded] and [accepted] off the answers of the case at hand. *)
Ltac answers :=
  unfold decoded, accepted;
  repeat (match goal with
          | H : respond _ _ _ = _ |- _ => rewrite H
          | H : ok _ = _ |- _ => rewrite H
          | H : json _ = _ |- _ => rewrite H
          | H : files _ = _ |- _ => rewrite H
          end; cbv beta iota).

(** Bring the hypotheses of the statement in and drop the answers they
    exclude. *)
Ltac given :=
  intros; repeat match goal with x := _ |- _ => subst x end;
  try congruence;
  repeat match goal with
    | H : Some ?x = Some ?y |- _ => injection H as H; first [subst x | subst y]
    | H : ?x :: ?l = ?y :: ?m |- _ =>
        injection H as H ?H; first [subst x | subst y]; first [subst l | subst m]
    end;
  try match goal with
      | H : Js.truthy ?t = false, N : ?t <> "" |- _ =>
          apply truthy_false in H; contradiction
      | H : Js.truthy ?t = true, N : ?t = "" |- _ =>
          rewrite N in H; discriminate H
      | H : Js.truthy ?n && _ = false, N : Js.trim ?n <> "" |- _ =>
          rewrite (named n N) in H; discriminate H
      end.

Section Answers.

Variable CONFIG : Config.
Variable env : Env.

#[local] Arguments search_request : simpl never.
#[local] Arguments upload_request : simpl never.
#[local] Arguments update_request : simpl never.
#[local] Arguments delete_request : simpl never.
#[local] Arguments Js.trim : simpl never.
#[local] Arguments dataset : simpl never.
#[local] Arguments rendering : simpl never.

(** X1.  A request whose promise is rejected (the network is down) ends the
    action: it is the last request; the action shows the message of the
    rejection, once, in a visible error box; the page is left idle and
    nothing is thrown. *)
Theorem rejected_request_is_reported (a : Action) (d : Dom) (i : nat)
    (req : Request) (e : JsError) :
  let w := dispatch env (handler CONFIG a) d in
  nth_error (network_calls (log w)) i = Some req ->
  respond env i req = Rejected e ->
  notices (log w) = [message e]
  /\ length (network_calls (log w)) = S i
  /\ errorBox_innerText (dom w) = message e
  /\ errorBox_hidden (dom w) = false
  /\ idle (dom w) = true
  /\ unhandled w = [].
Proof.
  by_answers; outcome d; intros Hn Hr;
    destruct i as [|[|[|i]]]; cbn in Hn; try discriminate Hn;
    injection Hn as <-; try congruence;
    match goal with
    | H : respond _ _ _ = Rejected ?e' |- _ => assert (e' = e) by congruence; subst e'
    end;
    repeat split.
Qed.

(** X2.  An action that issues no request leaves the loading indicator and
    the two triggers as they were; an action that issues one ends with the
    indicator hidden and both triggers enabled, whatever the answers and
    whatever state the page was in. *)
Theorem busy_state_after_action (a : Action) (d : Dom) :
  let w := dispatch env (handler CONFIG a) d in
  match network_calls (log w) with
  | [] =>
      loader_hidden (dom w) = loader_hidden d
      /\ searchBtn_disabled (dom w) = searchBtn_disabled d
      /\ uploadBtn_disabled (dom w) = uploadBtn_disabled d
  | _ :: _ => idle (dom w) = true
  end.
Proof. by_answers; outcome d; repeat split. Qed.

(** X3.  An action tells the user at most one thing.  Either it shows no
    notice, sets no timer and leaves the error box as it was; or it shows
    exactly one notice, which is then the text of the error box, visible,
    with exactly one timer set, the one that hides the box after five
    seconds. *)
Theorem at_most_one_notice (a : Action) (d : Dom) :
  let w := dispatch env (handler CONFIG a) d in
  match notices (log w) with
  | [] =>
      timeouts (log w) = []
      /\ errorBox_innerText (dom w) = errorBox_innerText d
      /\ errorBox_hidden (dom w) = errorBox_hidden d
  | [msg] =>
      timeouts (log w) = [error_timer]
      /\ errorBox_innerText (dom w) = msg /\ errorBox_hidden (dom w) = false
  | _ => False
  end.
Proof. by_answers; outcome d; repeat split. Qed.

(** X4.  A delete the user does not confirm does nothing but ask: the log is
    the confirmation dialog alone, no request is issued, and the page is
    what it was. *)
Theorem declined_delete_does_nothing (btn : list (string * string)) (d : Dom) :
  let w := dispatch env (handler CONFIG (Delete btn)) d in
  confirm env "Delete this file?" = false ->
  log w = [EvConfirm "Delete this file?"] /\ network_calls (log w) = [] /\ dom w = d.
Proof. by_answers; given; subst evs; repeat split; reflexivity. Qed.

(** X5.  What an action never writes.  No action changes the text of the
    search field.  Only an upload can change the selection of the file
    input, and an upload never touches the grid of results. *)
Theorem action_frame (a : Action) (d : Dom) :
  let w := dispatch env (handler CONFIG a) d in
  searchInput_value (dom w) = searchInput_value d
  /\ match a with
     | Upload => resultsGrid (dom w) = resultsGrid d
     | _ => fileInput_files (dom w) = fileInput_files d
     end.
Proof. by_answers; outcome d; repeat split. Qed.

(** X6.  The selection of the file input is cleared exactly when the upload
    went through to the end: the upload answered [ok] with a decodable
    body, and the rename answered [ok].  Then the one notice is that of
    success.  In every other case the selected files stay selected.
    Whatever happens, an upload issues only POST and PATCH requests: a file
    whose rename failed is not deleted again. *)
Theorem upload_clears_selection_iff_complete (d : Dom) (file : File) (others : list File) :
  let w := dispatch env (handler CONFIG Upload) d in
  let complete :=
    match decoded (respond env 0 (upload_request CONFIG file)) with
    | Some uploadedFile =>
        accepted
          (respond env 1
             (update_request CONFIG (get (props uploadedFile) "id") (file_name file)))
    | None => false
    end in
  fileInput_files d = file :: others ->
  fileInput_files (dom w) = (if complete then [] else file :: others)
  /\ (complete = true -> notices (log w) = ["File uploaded successfully!"])
  /\ Forall (fun req => method req = "POST" \/ method req = "PATCH")
       (network_calls (log w)).
Proof.
  by_answers; given;
    answers; outcome d; subst;
    repeat split; try discriminate;
    repeat match goal with
      | |- Forall _ (_ :: _) => constructor; [first [now left | now right]|]
      | |- Forall _ [] => constructor
      end.
Qed.


(** X8.  An action reads two things off the page and nothing else: the
    search field, up to the white space around its text, and the first of
    the selected files.  Two pages that agree on these give the same log,
    whatever they show and whatever else is selected. *)
Theorem action_reads_term_and_first_file (a : Action) (d d' : Dom) :
  Js.trim (searchInput_value d) = Js.trim (searchInput_value d') ->
  hd_error (fileInput_files d) = hd_error (fileInput_files d') ->
  log (dispatch env (handler CONFIG a) d) = log (dispatch env (handler CONFIG a) d').
Proof.
  intros Hterm Hfile. rewrite !log_action.
  destruct a as [| |btn|btn]; cbn [action_events].
  - now rewrite Hterm.
  - destruct (fileInput_files d) as [|file others], (fileInput_files d') as [|file' others'];
      try discriminate Hfile; [reflexivity|].
    now injection Hfile as ->.
  - unfold edit_events, mutation_events, refresh_now, refresh_later. now rewrite Hterm.
  - unfold delete_events, mutation_events, refresh_now, refresh_later. now rewrite Hterm.
Qed.

(** X9.  A rename sends the name the user typed with the white space around
    it removed: the first request is a PATCH to the file of the button's
    [data-id], and the name that its JSON body reads back as is the trimmed
    name.  The dialog offered the button's [data-name] as the default. *)
Theorem rename_sends_the_trimmed_name (btn : list (string * string)) (d : Dom)
    (newName : string) :
  let w := dispatch env (handler CONFIG (Rename btn)) d in
  prompt env "Enter new name:" (dataset btn "name") = Some newName ->
  Js.trim newName <> "" ->
  hd_error (log w) = Some (EvPrompt "Enter new name:" (dataset btn "name"))
  /\ exists req text,
       hd_error (network_calls (log w)) = Some req
       /\ method req = "PATCH"
       /\ url req = BASE_URL CONFIG ++ "/" ++ Js.toStr (dataset btn "id")
       /\ body req = Text text
       /\ Js.JSON_parse_name text = Some (Js.trim newName).
Proof.
  by_answers; given;
    (split; [subst evs; reflexivity|]);
    eexists (update_request CONFIG (dataset btn "id") (Js.trim newName)), _;
    outcome d; repeat split; apply JSON_parse_stringify_name.
Qed.



(** X12.  Every request of every action is one of the four the transport
    functions build, and carries the access token of the configuration as
    its bearer credential. *)
Theorem every_request_is_authorized (a : Action) (d : Dom) (req : Request) :
  let w := dispatch env (handler CONFIG a) d in
  In req (network_calls (log w)) ->
  Js.lookup "Authorization" (headers req) = Some ("Bearer " ++ ACCESS_TOKEN CONFIG)
  /\ exists c, req = request_of CONFIG c.
Proof.
  by_answers; outcome d; intros Hin;
    repeat match goal with
      | H : _ \/ _ |- _ => destruct H as [H|H]
      | H : False |- _ => destruct H
      end;
    subst req; (split; [reflexivity|]);
    match goal with
    | |- exists c, search_request _ ?t = _ => exists (SearchFiles t)
    | |- exists c, upload_request _ ?f = _ => exists (UploadFile f)
    | |- exists c, update_request _ ?i ?n = _ => exists (UpdateFile i n)
    | |- exists c, delete_request _ ?i = _ => exists (DeleteFile i)
    end; reflexivity.
Qed.

(** X13.  No action retries and none issues more than two requests; the
    requests of one action differ in method. *)
Theorem at_most_two_requests (a : Action) (d : Dom) :
  let w := dispatch env (handler CONFIG a) d in
  length (network_calls (log w)) <= 2
  /\ NoDup (map method (network_calls (log w))).
Proof.
  by_answers; outcome d; (split; [repeat constructor|]);
    cbv [map method search_request upload_request update_request delete_request];
    repeat match goal with
      | |- NoDup [] => constructor
      | |- NoDup (_ :: _) => constructor; [cbn; intuition discriminate|]
      end.
Qed.

(** X14.  An upload whose answer names no [id] renames the file "undefined":
    the second request is a PATCH to [BASE_URL/undefined]. *)
Theorem upload_without_id_renames_undefined (d : Dom) (file : File) (others : list File)
    (uploadedFile : Body) :
  let w := dispatch env (handler CONFIG Upload) d in
  fileInput_files d = file :: others ->
  decoded (respond env 0 (upload_request CONFIG file)) = Some uploadedFile ->
  get (props uploadedFile) "id" = None ->
  exists rename,
    nth_error (network_calls (log w)) 1 = Some rename
    /\ method rename = "PATCH"
    /\ url rename = BASE_URL CONFIG ++ "/undefined"
    /\ body rename = Text (Js.JSON_stringify_name (file_name file)).
Proof.
  by_answers; given;
    match goal with H : decoded _ = Some _ |- _ => revert H end;
    answers; intros Hd; try discriminate Hd; injection Hd as <-;
    eexists; outcome d; (split; [reflexivity|]);
    match goal with H : get _ "id" = None |- _ => unfold update_request, file_url; rewrite H end;
    repeat split.
Qed.

Lemma grid_after_search (d : Dom) (data : Body) (l : list JsObject) :
  let w := dispatch env (handler CONFIG Search) d in
  Js.trim (searchInput_value d) <> "" ->
  decoded (respond env 0 (search_request CONFIG (Js.trim (searchInput_value d)))) = Some data ->
  files data = Some l ->
  resultsGrid (dom w) = map (fun file => wire (card_of file)) l.
Proof.
  by_answers; given;
    match goal with H : decoded _ = Some _ |- _ => revert H end;
    answers; intros Hd; try discriminate Hd; injection Hd as <-;
    match goal with
    | H1 : files ?x = _, H2 : files ?x = Some l |- _ =>
        rewrite H1 in H2; first [discriminate H2 | injection H2 as <-]
    end;
    outcome d; reflexivity.
Qed.

Lemma first_request_of_delete (btn : list (string * string)) (d : Dom) :
  let w := dispatch env (handler CONFIG (Delete btn)) d in
  confirm env "Delete this file?" = true ->
  hd_error (network_calls (log w)) = Some (delete_request CONFIG (dataset btn "id")).
Proof. by_answers; given; outcome d; reflexivity. Qed.

Lemma first_event_of_rename (btn : list (string * string)) (d : Dom) :
  hd_error (log (dispatch env (handler CONFIG (Rename btn)) d))
  = Some (EvPrompt "Enter new name:" (dataset btn "name")).
Proof. now rewrite log_action. Qed.

(** X15.  From the answer to the click.  After a search whose answer lists
    records with inert names and identifiers, the page has one working
    delete control and one working rename control per record, in order.
    Clicking the delete control of a record and confirming sends, first of
    all, a DELETE for the identifier of that record; clicking its rename
    control opens the dialog with the name of that record as the default. *)
Theorem found_records_can_be_changed (d : Dom) (data : Body) (l : list JsObject) :
  let w := dispatch env (handler CONFIG Search) d in
  Js.trim (searchInput_value d) <> "" ->
  decoded (respond env 0 (search_request CONFIG (Js.trim (searchInput_value d)))) = Some data ->
  files data = Some l ->
  (forall file, In file l ->
     inert (Js.toStr (get file "name")) = true
     /\ inert (Js.toStr (get file "id")) = true) ->
  confirm env "Delete this file?" = true ->
  map (fun btn =>
         hd_error (network_calls (log (dispatch env (handler CONFIG (Delete btn)) (dom w)))))
      (buttons "delete-btn" (dom w))
  = map (fun file => Some (delete_request CONFIG (Some (Js.toStr (get file "id"))))) l
  /\ map (fun btn => hd_error (log (dispatch env (handler CONFIG (Rename btn)) (dom w))))
         (buttons "edit-btn" (dom w))
     = map (fun file =>
              Some (EvPrompt "Enter new name:" (Some (Js.toStr (get file "name"))))) l.
Proof.
  intros w Hterm Hdata Hfiles Hinert Hyes.
  destruct (buttons_rendering l (dom w) Hinert (grid_after_search d data l Hterm Hdata Hfiles))
    as [Hedit Hdelete].
  rewrite Hedit, Hdelete, !map_map. split; apply map_ext; intros file.
  - now rewrite (first_request_of_delete _ _ Hyes).
  - now rewrite first_event_of_rename.
Qed.

(** X16.  No action throws.  Whatever the page, the dialogs and the network
    answer, every handler runs to its end with no exception and no rejected
    promise left unhandled, the refresh that nobody awaits included. *)
Theorem no_action_throws (a : Action) (d : Dom) :
  unhandled (dispatch env (handler CONFIG a) d) = [].
Proof. apply unhandled_action. Qed.


(** X18.  Every request that has a body says what the body is, and a request
    without one says nothing: the searches and the deletes of an action
    carry no body and no content type, its renames carry a JSON text as
    [application/json], and its uploads carry the file under the file's own
    type. *)
Theorem every_body_is_typed (a : Action) (d : Dom) (req : Request) :
  let w := dispatch env (handler CONFIG a) d in
  In req (network_calls (log w)) ->
  Js.lookup "Content-Type" (headers req) =
    match body req with
    | NoBody => None
    | Text _ => Some "application/json"
    | Blob file => Some (file_type file)
    end
  /\ (body req = NoBody <-> method req = "GET" \/ method req = "DELETE").
Proof.
  by_answers; outcome d; intros Hin;
    repeat match goal with
      | H : _ \/ _ |- _ => destruct H as [H|H]
      | H : False |- _ => destruct H
      end;
    subst req; (split; [reflexivity|]);
    cbv [body method search_request upload_request update_request delete_request];
    (split; [intros H; first [discriminate H | now left | now right]
            | intros [H|H]; first [discriminate H | reflexivity]]).
Qed.

(** X19.  A first request that fails ends the action then and there.  When
    the first request of an action is rejected or answered not [ok], it is
    the only request: nothing is retried, nothing is refreshed, the grid
    keeps its cards and the file input its selection. *)
Theorem failed_first_request_stops_the_action (a : Action) (d : Dom) (req : Request) :
  let w := dispatch env (handler CONFIG a) d in
  hd_error (network_calls (log w)) = Some req ->
  accepted (respond env 0 req) = false ->
  network_calls (log w) = [req]
  /\ resultsGrid (dom w) = resultsGrid d
  /\ fileInput_files (dom w) = fileInput_files d.
Proof.
  by_answers; outcome d; intros Hreq; try discriminate Hreq;
    injection Hreq as <-; answers; intros; try discriminate; repeat split;
    assumption.
Qed.

End Answers.

#[local] Transparent notice busy_on busy_off error_timer.

(* ================================================================== *)
(** ** The query string of a search *)
(* ================================================================== *)





(* ================================================================== *)
(** ** Concrete runs *)
(* ================================================================== *)

(** An upload whose file arrives and whose rename is refused: the second
    request of the action fails, and "Update failed." is the one notice. *)
Lemma failed_request_is_reported_witness :
  let env := answers [success {| props := [("id", "f9")]; files := None |}; refusal]
               None false in
  let d := page "" [sample_file] in
  let c := UpdateFile (Some "f9") "notes.txt" in
  let w := dispatch env (handler sample_config Upload) d in
  nth_error (network_calls (log w)) 1 = Some (request_of sample_config c)
  /\ respond env 1 (request_of sample_config c)
     = Resolved {| ok := false; json := inl (SyntaxError "Unexpected end of JSON input") |}
  /\ (forall w0, calls w0 = 1 ->
        snd (run env (api sample_config c) w0) = Abrupt (Error "Update failed."))
  /\ notices (log w) = ["Update failed."]
  /\ errorBox_innerText (dom w) = "Update failed."
  /\ errorBox_hidden (dom w) = false
  /\ unhandled w = [].
Proof.
  cbv zeta. split; [reflexivity|]. split; [reflexivity|].
  apply (failed_request_is_reported sample_config
           (answers [success {| props := [("id", "f9")]; files := None |}; refusal] None false)
           Upload (page "" [sample_file]) 1 (UpdateFile (Some "f9") "notes.txt")
           {| ok := false; json := inl (SyntaxError "Unexpected end of JSON input") |});
    reflexivity.
Defined.






Lemma search_blank_term_issues_no_call_witness :
  let env := answers [] None false in
  let d := page (String (Js.chr 9) "   ") [] in
  let w := dispatch env (handleSearch sample_config) d in
  Js.trim (searchInput_value d) = ""
  /\ network_calls (log w) = []
  /\ notices (log w) = ["Please enter a search term."]
  /\ errorBox_innerText (dom w) = "Please enter a search term."
  /\ errorBox_hidden (dom w) = false
  /\ unhandled w = [].
Proof.
  cbv zeta. split; [reflexivity|].
  exact (search_blank_term_issues_no_call sample_config (answers [] None false)
           (page (String (Js.chr 9) "   ") []) eq_refl).
Defined.

Lemma rename_blank_name_issues_no_call_witness :
  let env := answers [] (Some "   ") false in
  let btn := [("class", "edit-btn"); ("data-id", "1"); ("data-name", "report.pdf")] in
  let d := page "report" [] in
  let w := dispatch env (edit_onclick sample_config btn) d in
  (forall newName,
     prompt env "Enter new name:" (dataset btn "name") = Some newName ->
     Js.trim newName = "")
  /\ network_calls (log w) = []
  /\ log w = [EvPrompt "Enter new name:" (Some "report.pdf")]
  /\ dom w = d
  /\ unhandled w = [].
Proof.
  cbv zeta.
  assert (H : forall newName,
     prompt (answers [] (Some "   ") false) "Enter new name:"
       (dataset [("class", "edit-btn"); ("data-id", "1"); ("data-name", "report.pdf")] "name")
     = Some newName -> Js.trim newName = "").
  { intros newName Hn. inversion Hn. reflexivity. }
  split; [exact H|].
  exact (rename_blank_name_issues_no_call sample_config (answers [] (Some "   ") false)
           [("class", "edit-btn"); ("data-id", "1"); ("data-name", "report.pdf")]
           (page "report" []) H).
Defined.

Lemma upload_without_file_issues_no_call_witness :
  let env := answers [] None false in
  let d := page "" [] in
  let w := dispatch env (handleUpload sample_config) d in
  fileInput_files d = []
  /\ network_calls (log w) = []
  /\ notices (log w) = ["Select a file first."]
  /\ errorBox_innerText (dom w) = "Select a file first."
  /\ errorBox_hidden (dom w) = false
  /\ unhandled w = [].
Proof.
  cbv zeta. split; [reflexivity|].
  exact (upload_without_file_issues_no_call sample_config (answers [] None false)
           (page "" []) eq_refl).
Defined.

Lemma search_is_bracketed_by_busy_witness :
  let env := answers [refusal] None false in
  let d := page " report " [] in
  let w := dispatch env (handleSearch sample_config) d in
  Js.trim (searchInput_value d) = "report"
  /\ exists middle,
       log w = (busy_on ++ [EvFetch (search_request sample_config "report")]
                ++ middle ++ busy_off)%list
       /\ busy (replay busy_on d) = true
       /\ forallb (fun ev => negb (touches_busy ev)) middle = true
       /\ network_calls middle = []
       /\ idle (dom w) = true
       /\ unhandled w = [].
Proof.
  cbv zeta. split; [reflexivity|].
  refine (search_is_bracketed_by_busy sample_config (answers [refusal] None false)
            (page " report " []) _).
  vm_compute. discriminate.
Defined.


(** A term with a quote in it: the operand is cut at the quote, and the
    rest of the term is filter syntax. *)
Example quote_in_term_ends_the_literal :
  DriveQuery.name_operand (search_filter "x' or name contains 'y")
  = Some ("x", " or name contains 'y' and trashed = false").
Proof. reflexivity. Qed.

(** The four operations, each refused once. *)
Example refused_search_is_reported :
  notices (log (dispatch (answers [refusal] None false)
                  (handleSearch sample_config) (page "report" [])))
  = ["Failed to fetch files."].
Proof. reflexivity. Qed.

Example refused_upload_is_reported :
  notices (log (dispatch (answers [refusal] None false)
                  (handleUpload sample_config) (page "" [sample_file])))
  = ["Upload failed."].
Proof. reflexivity. Qed.

Example refused_rename_is_reported :
  notices (log (dispatch (answers [refusal] (Some " final.pdf ") false)
                  (edit_onclick sample_config [("data-id", "1"); ("data-name", "draft.pdf")])
                  (page "report" [])))
  = ["Update failed."].
Proof. reflexivity. Qed.

Example refused_delete_is_reported :
  notices (log (dispatch (answers [refusal] None true)
                  (delete_onclick sample_config [("data-id", "1")]) (page "report" [])))
  = ["Delete failed."].
Proof. reflexivity. Qed.

(** A delete that succeeds and the search it starts: the delete's [finally]
    runs while the search is under way, and the search ends the action. *)
Example delete_then_refresh :
  let w := dispatch (answers [success {| props := []; files := None |};
                              success {| props := []; files := Some [] |}] None true)
             (delete_onclick sample_config [("data-id", "1")]) (page "report" []) in
  log w =
    ([EvConfirm "Delete this file?"] ++ busy_on
     ++ [EvFetch (delete_request sample_config (Some "1"))]
     ++ busy_on ++ [EvFetch (search_request sample_config "report")]
     ++ busy_off
     ++ [EvDom ResultsGrid_clear] ++ notice "No results found." ++ busy_off)%list
  /\ idle (dom w) = true
  /\ unhandled w = [].
Proof. cbv zeta. repeat split; reflexivity. Qed.

(** White space beyond ASCII is trimmed as well (here U+00A0 and U+3000). *)
Example trim_no_break_space :
  Js.trim (String (Js.chr 194) (String (Js.chr 160) " a b "
           ++ String (Js.chr 227) (String (Js.chr 128) (String (Js.chr 128) ""))))
  = "a b".
Proof. reflexivity. Qed.

(** *** The outcomes of the actions, run *)

(** The network is down when a file is to be deleted. *)
Lemma rejected_request_is_reported_witness :
  let env := answers [] None true in
  let req := delete_request sample_config (Some "f1") in
  let w := dispatch env (handler sample_config (Delete [("data-id", "f1")])) (page "report" []) in
  nth_error (network_calls (log w)) 0 = Some req
  /\ respond env 0 req = Rejected (TypeError "Failed to fetch")
  /\ notices (log w) = ["Failed to fetch"]
  /\ length (network_calls (log w)) = 1
  /\ errorBox_innerText (dom w) = "Failed to fetch"
  /\ errorBox_hidden (dom w) = false
  /\ idle (dom w) = true
  /\ unhandled w = [].
Proof.
  cbv zeta. split; [reflexivity|]. split; [reflexivity|].
  exact (rejected_request_is_reported sample_config (answers [] None true)
           (Delete [("data-id", "f1")]) (page "report" []) 0
           (delete_request sample_config (Some "f1")) (TypeError "Failed to fetch")
           eq_refl eq_refl).
Defined.

(** The user answers no. *)
Lemma declined_delete_does_nothing_witness :
  let env := answers [] None false in
  let d := page "report" [sample_file] in
  let w := dispatch env (handler sample_config (Delete [("data-id", "f1")])) d in
  confirm env "Delete this file?" = false
  /\ log w = [EvConfirm "Delete this file?"] /\ network_calls (log w) = [] /\ dom w = d.
Proof.
  cbv zeta. split; [reflexivity|].
  exact (declined_delete_does_nothing sample_config (answers [] None false)
           [("data-id", "f1")] (page "report" [sample_file]) eq_refl).
Defined.

(** The upload goes through, the rename is refused: the file stays
    selected. *)
Lemma upload_clears_selection_iff_complete_witness :
  let env := answers [success {| props := [("id", "f9")]; files := None |}; refusal]
               None false in
  let d := page "" [sample_file] in
  let w := dispatch env (handler sample_config Upload) d in
  fileInput_files d = [sample_file]
  /\ fileInput_files (dom w) = [sample_file]
  /\ (false = true -> notices (log w) = ["File uploaded successfully!"])
  /\ Forall (fun req => method req = "POST" \/ method req = "PATCH")
       (network_calls (log w)).
Proof.
  cbv zeta. split; [reflexivity|].
  exact (upload_clears_selection_iff_complete sample_config
           (answers [success {| props := [("id", "f9")]; files := None |}; refusal] None false)
           (page "" [sample_file]) sample_file [] eq_refl).
Defined.


(** The same search from two pages: spaces around the term, another file
    selected after the first. *)
Lemma action_reads_term_and_first_file_witness :
  let env := answers [refusal] None false in
  let other := {| file_name := "b.txt"; file_type := "text/plain"; file_bytes := "" |} in
  let d := page "  report " [sample_file] in
  let d' := page "report" [sample_file; other] in
  Js.trim (searchInput_value d) = Js.trim (searchInput_value d')
  /\ hd_error (fileInput_files d) = hd_error (fileInput_files d')
  /\ log (dispatch env (handler sample_config Search) d)
     = log (dispatch env (handler sample_config Search) d').
Proof.
  cbv zeta. split; [reflexivity|]. split; [reflexivity|].
  exact (action_reads_term_and_first_file sample_config (answers [refusal] None false) Search
           (page "  report " [sample_file])
           (page "report"
              [sample_file;
               {| file_name := "b.txt"; file_type := "text/plain"; file_bytes := "" |}])
           eq_refl eq_refl).
Defined.

(** A new name typed with spaces around it. *)
Lemma rename_sends_the_trimmed_name_witness :
  let btn := [("class", "edit-btn"); ("data-id", "1"); ("data-name", "old.txt")] in
  let env := answers [refusal] (Some "  new.txt ") false in
  let w := dispatch env (handler sample_config (Rename btn)) (page "" []) in
  prompt env "Enter new name:" (dataset btn "name") = Some "  new.txt "
  /\ Js.trim "  new.txt " = "new.txt"
  /\ hd_error (log w) = Some (EvPrompt "Enter new name:" (Some "old.txt"))
  /\ exists req text,
       hd_error (network_calls (log w)) = Some req
       /\ method req = "PATCH"
       /\ url req = "https://www.googleapis.com/drive/v3/files/1"
       /\ body req = Text text
       /\ Js.JSON_parse_name text = Some "new.txt".
Proof.
  cbv zeta. split; [reflexivity|]. split; [reflexivity|].
  exact (rename_sends_the_trimmed_name sample_config
           (answers [refusal] (Some "  new.txt ") false)
           [("class", "edit-btn"); ("data-id", "1"); ("data-name", "old.txt")]
           (page "" []) "  new.txt " eq_refl ltac:(vm_compute; discriminate)).
Defined.



(** The request of a search. *)
Lemma every_request_is_authorized_witness :
  let env := answers [refusal] None false in
  let req := search_request sample_config "report" in
  let w := dispatch env (handler sample_config Search) (page "report" []) in
  In req (network_calls (log w))
  /\ Js.lookup "Authorization" (headers req) = Some "Bearer token"
  /\ exists c, req = request_of sample_config c.
Proof.
  cbv zeta. split; [now left|].
  exact (every_request_is_authorized sample_config (answers [refusal] None false) Search
           (page "report" []) (search_request sample_config "report")
           (or_introl eq_refl)).
Defined.

(** An upload answered without an identifier. *)
Lemma upload_without_id_renames_undefined_witness :
  let uploadedFile := {| props := [("name", "Untitled")]; files := None |} in
  let env := answers [success uploadedFile; refusal] None false in
  let d := page "" [sample_file] in
  let w := dispatch env (handler sample_config Upload) d in
  fileInput_files d = [sample_file]
  /\ decoded (respond env 0 (upload_request sample_config sample_file)) = Some uploadedFile
  /\ get (props uploadedFile) "id" = None
  /\ exists rename,
       nth_error (network_calls (log w)) 1 = Some rename
       /\ method rename = "PATCH"
       /\ url rename = "https://www.googleapis.com/drive/v3/files/undefined"
       /\ body rename = Text (Js.JSON_stringify_name "notes.txt").
Proof.
  cbv zeta. split; [reflexivity|]. split; [reflexivity|]. split; [reflexivity|].
  exact (upload_without_id_renames_undefined sample_config
           (answers [success {| props := [("name", "Untitled")]; files := None |}; refusal]
              None false)
           (page "" [sample_file]) sample_file []
           {| props := [("name", "Untitled")]; files := None |} eq_refl eq_refl eq_refl).
Defined.

(** One record found, then its two controls clicked. *)
Lemma found_records_can_be_changed_witness :
  let record := [("id", "1"); ("name", "report.pdf")] in
  let data := {| props := []; files := Some [record] |} in
  let env := answers [success data] None true in
  let d := page "report" [] in
  let w := dispatch env (handler sample_config Search) d in
  Js.trim (searchInput_value d) = "report"
  /\ decoded (respond env 0 (search_request sample_config "report")) = Some data
  /\ files data = Some [record]
  /\ (forall file, In file [record] ->
        inert (Js.toStr (get file "name")) = true
        /\ inert (Js.toStr (get file "id")) = true)
  /\ confirm env "Delete this file?" = true
  /\ map (fun btn =>
            hd_error
              (network_calls (log (dispatch env (handler sample_config (Delete btn)) (dom w)))))
         (buttons "delete-btn" (dom w))
     = [Some (delete_request sample_config (Some "1"))]
  /\ map (fun btn => hd_error (log (dispatch env (handler sample_config (Rename btn)) (dom w))))
         (buttons "edit-btn" (dom w))
     = [Some (EvPrompt "Enter new name:" (Some "report.pdf"))].
Proof.
  cbv zeta.
  assert (Hinert : forall file, In file [[("id", "1"); ("name", "report.pdf")]] ->
            inert (Js.toStr (get file "name")) = true
            /\ inert (Js.toStr (get file "id")) = true).
  { intros file [<-|[]]. split; reflexivity. }
  split; [reflexivity|]. split; [reflexivity|]. split; [reflexivity|].
  split; [exact Hinert|]. split; [reflexivity|].
  exact (found_records_can_be_changed sample_config
           (answers [success {| props := [];
                                files := Some [[("id", "1"); ("name", "report.pdf")]] |}]
              None true)
           (page "report" [])
           {| props := []; files := Some [[("id", "1"); ("name", "report.pdf")]] |}
           [[("id", "1"); ("name", "report.pdf")]]
           ltac:(vm_compute; discriminate) eq_refl eq_refl Hinert eq_refl).
Defined.

(** The request of an upload. *)
Lemma every_body_is_typed_witness :
  let env := answers [] None false in
  let req := upload_request sample_config sample_file in
  let w := dispatch env (handler sample_config Upload) (page "" [sample_file]) in
  In req (network_calls (log w))
  /\ Js.lookup "Content-Type" (headers req) = Some "text/plain"
  /\ (body req = NoBody <-> method req = "GET" \/ method req = "DELETE").
Proof.
  cbv zeta. split; [now left|].
  exact (every_body_is_typed sample_config (answers [] None false) Upload
           (page "" [sample_file]) (upload_request sample_config sample_file)
           (or_introl eq_refl)).
Defined.

(** A search that is refused. *)
Lemma failed_first_request_stops_the_action_witness :
  let env := answers [refusal] None false in
  let req := search_request sample_config "report" in
  let d := page "report" [sample_file] in
  let w := dispatch env (handler sample_config Search) d in
  hd_error (network_calls (log w)) = Some req
  /\ accepted (respond env 0 req) = false
  /\ network_calls (log w) = [req]
  /\ resultsGrid (dom w) = resultsGrid d
  /\ fileInput_files (dom w) = fileInput_files d.
Proof.
  cbv zeta. split; [reflexivity|]. split; [reflexivity|].
  exact (failed_first_request_stops_the_action sample_config (answers [refusal] None false)
           Search (page "report" [sample_file]) (search_request sample_config "report")
           eq_refl eq_refl).
Defined.
